(** * Tracing integrations for molten and pyramid

    A shallow embedding of [ddtrace/contrib/molten/patch.py] and
    [ddtrace/contrib/pyramid/trace.py].

    The Python code runs against a tracer, a web framework and a handful of
    helper modules.  The code of the two files is embedded as functions in a
    state-and-exception monad; the collaborators it calls are either modelled
    from the specification (and marked as such) or taken as parameters
    (class [Imports]). *)

From Stdlib Require Import ZArith String Ascii List Bool Lia.
From stdpp Require Import base option list gmap strings pretty.

Local Open Scope string_scope.
Local Open Scope Z_scope.

(** ** Python values and built-ins

    Text is ASCII text: what the built-ins do with other characters is
    not modelled. *)

Module Py.

(** The Python values that reach tags and settings.  A float is kept by
    its [repr]. *)
Inductive PyVal : Type :=
| PNone
| PBool (b : bool)
| PInt (z : Z)
| PStr (s : string)
| PFloat (repr : string).

#[global] Instance PyVal_eq_dec : EqDecision PyVal.
Proof. solve_decision. Defined.

(** [bool(v)]. *)
Definition truthy (v : PyVal) : bool :=
  match v with
  | PNone => false
  | PBool b => b
  | PInt z => negb (z =? 0)
  | PStr s => negb (String.eqb s "")
  | PFloat r => negb (String.eqb r "0.0" || String.eqb r "-0.0")
  end.

(** [bool(o)] for an optional value: [None] is falsy. *)
Definition truthy_opt (o : option PyVal) : bool :=
  match o with
  | None => false
  | Some v => truthy v
  end.

(** [str(z)] for an [int], in decimal.  (An interpreter with a limit on
    the digits of such a conversion raises beyond it; the integers the
    code formats are a port and a status code that [int] has produced,
    which are within the limit.) *)
Definition str_of_int (z : Z) : string := pretty z.

(** [str(v)]. *)
Definition str (v : PyVal) : string :=
  match v with
  | PNone => "None"
  | PBool true => "True"
  | PBool false => "False"
  | PInt z => str_of_int z
  | PStr s => s
  | PFloat r => r
  end.

(** [s.partition(" ")]: the text before the first space, the separator
    and the rest; a string without a space comes back whole. *)
Fixpoint partition_space (s : string) : string * string * string :=
  match s with
  | EmptyString => ("", "", "")
  | String c rest =>
      if Ascii.eqb c " "%char then ("", " ", rest)
      else let '(h, sep, t) := partition_space rest in (String c h, sep, t)
  end.

(** ASCII white space as [str.strip()] sees it. *)
Definition is_space (c : ascii) : bool :=
  let n := nat_of_ascii c in
  ((9 <=? n) && (n <=? 13) || (28 <=? n) && (n <=? 32))%nat.

(** ASCII white space as [int()] skips it around the number: tab, line
    feed, vertical tab, form feed, carriage return and space. *)
Definition is_c_space (c : ascii) : bool :=
  let n := nat_of_ascii c in
  ((9 <=? n) && (n <=? 13) || (n =? 32))%nat.

Fixpoint lstrip_by (p : ascii -> bool) (s : string) : string :=
  match s with
  | EmptyString => EmptyString
  | String c rest => if p c then lstrip_by p rest else s
  end.

Fixpoint rev_string (s acc : string) : string :=
  match s with
  | EmptyString => acc
  | String c rest => rev_string rest (String c acc)
  end.

(** The string without the characters that pass [p] at its two ends. *)
Definition strip_by (p : ascii -> bool) (s : string) : string :=
  rev_string (lstrip_by p (rev_string (lstrip_by p s) "")) "".

(** [s.strip()] *)
Definition strip (s : string) : string := strip_by is_space s.

Definition digit_value (c : ascii) : option Z :=
  let n := nat_of_ascii c in
  if ((48 <=? n) && (n <=? 57))%nat then Some (Z.of_nat n - 48) else None.

(** The digits after a first digit: each is a digit, or one underscore
    followed by a digit. *)
Fixpoint more_digits (s : string) (acc : Z) : option Z :=
  match s with
  | EmptyString => Some acc
  | String c rest =>
      if Ascii.eqb c "_"%char then
        match rest with
        | EmptyString => None
        | String d rest' =>
            match digit_value d with
            | Some v => more_digits rest' (10 * acc + v)
            | None => None
            end
        end
      else
        match digit_value c with
        | Some v => more_digits rest (10 * acc + v)
        | None => None
        end
  end.

Definition unsigned_digits (s : string) : option Z :=
  match s with
  | EmptyString => None
  | String c rest =>
      match digit_value c with
      | Some v => more_digits rest v
      | None => None
      end
  end.

(** How many decimal digits a string holds. *)
Fixpoint count_digits (s : string) : nat :=
  match s with
  | EmptyString => 0%nat
  | String c rest =>
      match digit_value c with
      | Some _ => S (count_digits rest)
      | None => count_digits rest
      end
  end.

(** The interpreter's limit on the digits of a decimal string that
    [int()] converts ([sys.get_int_max_str_digits()], by default). *)
Definition int_max_str_digits : nat := 4300%nat.

(** [int(s)] for a [str] in base ten, on ASCII text: [Some n] when the
    call returns [n], [None] when it raises [ValueError].  White space
    around the number is skipped, a sign may come first, and the digits
    may be grouped by single underscores; a number of more digits than
    the limit is refused. *)
Definition int (s : string) : option Z :=
  let t := strip_by is_c_space s in
  if (int_max_str_digits <? count_digits t)%nat then None
  else
    match t with
    | EmptyString => None
    | String c rest =>
        if Ascii.eqb c "+"%char then unsigned_digits rest
        else if Ascii.eqb c "-"%char then Z.opp <$> unsigned_digits rest
        else unsigned_digits t
    end.

(** [dict(pairs)]: a later value replaces an earlier one, a key keeps the
    place of its first occurrence. *)
Fixpoint dict_set (k v : string) (d : list (string * string)) : list (string * string) :=
  match d with
  | [] => [(k, v)]
  | (k', v') :: d' => if String.eqb k k' then (k', v) :: d' else (k', v') :: dict_set k v d'
  end.

Definition dict (pairs : list (string * string)) : list (string * string) :=
  fold_left (fun d kv => dict_set (fst kv) (snd kv) d) pairs [].

(** Every character of [s] passes the test [p]. *)
Fixpoint all_chars (p : ascii -> bool) (s : string) : bool :=
  match s with
  | EmptyString => true
  | String c rest => p c && all_chars p rest
  end.

(** The test for a character other than the space that [partition]
    splits at, and for a character that is no white space. *)
Definition not_space (c : ascii) : bool := negb (Ascii.eqb c " "%char).
Definition not_white (c : ascii) : bool := negb (is_c_space c).

(** An ASCII character. *)
Definition is_ascii (c : ascii) : bool := (nat_of_ascii c <? 128)%nat.

(** The characters a string that [int()] accepts is made of: digits,
    the two signs, the underscore and white space. *)
Definition int_char (c : ascii) : bool :=
  match digit_value c with
  | Some _ => true
  | None => Ascii.eqb c "+"%char || Ascii.eqb c "-"%char || Ascii.eqb c "_"%char
            || is_c_space c
  end.

End Py.

(** ** The tracer

    The tracer, its spans and the helpers of [ddtrace.contrib.trace_utils]
    are collaborators of the two files: none of them is defined there. *)

Module Tracer.

Definition Headers : Type := list (string * string).

(** Modelled from the spec: the trace context of section 3, with its trace
    id, parent span id, sampling priority and baggage. *)
Record TraceContext : Type := {
  trace_id : option Z;
  parent_span_id : option Z;
  sampling_priority : option Z;
  extra_baggage : list (string * string)
}.

(** The empty context, which starts a new trace. *)
Definition empty_context : TraceContext :=
  {| trace_id := None; parent_span_id := None; sampling_priority := None;
     extra_baggage := [] |}.

(** A tracer object: what the code reads of it is [tracer.enabled]. *)
Record Tracer : Type := { tracer_name : string; enabled : bool }.

(** A [Pin]: the tracer it carries. *)
Record Pin : Type := { pin_tracer : Tracer }.

(** Modelled from the spec: [pin.enabled()]; the [Pin] class is not part
    of the sources, section 9 says an interceptor asks whether the tracer
    is disabled. *)
Definition pin_enabled (p : Pin) : bool := enabled (pin_tracer p).

(** The status code handed to [set_http_meta]: an [int], or the raw text
    when the status line did not parse. *)
Inductive StatusCode : Type :=
| CodeInt (z : Z)
| CodeStr (s : string).

(** The keyword arguments of one call of [trace_utils.set_http_meta];
    [None] is an argument left out or passed as [None]. *)
Record HttpMeta : Type := {
  hm_method : option string;
  hm_url : option string;
  hm_status_code : option StatusCode;
  hm_query : option string;
  hm_request_headers : option Headers;
  hm_response_headers : option Headers;
  hm_route : option string
}.

(** Modelled from the spec: the span handle of sections 3 and 6.  The
    [Span] class is not part of the sources; the record holds what
    [trace], [setTag] and [setResource] write, the parent context the
    span was opened under, the HTTP metadata recorded on it (one entry
    per call of [set_http_meta], oldest first), the error mark that
    leaving the scope by an exception sets (sections 4.2 and 7) and
    whether the scope has been left. *)
Record Span : Type := {
  name : string;
  service : option string;
  resource : option string;
  span_type : string;
  parent : TraceContext;
  tags : gmap string Py.PyVal;
  http_meta : list HttpMeta;
  error : bool;
  finished : bool
}.

Definition with_resource (r : string) (s : Span) : Span :=
  {| name := name s; service := service s; resource := Some r; span_type := span_type s;
     parent := parent s; tags := tags s; http_meta := http_meta s;
     error := error s; finished := finished s |}.

Definition with_tag (k : string) (v : Py.PyVal) (s : Span) : Span :=
  {| name := name s; service := service s; resource := resource s; span_type := span_type s;
     parent := parent s; tags := <[k := v]> (tags s); http_meta := http_meta s;
     error := error s; finished := finished s |}.

Definition with_http_meta (m : HttpMeta) (s : Span) : Span :=
  {| name := name s; service := service s; resource := resource s; span_type := span_type s;
     parent := parent s; tags := tags s; http_meta := http_meta s ++ [m];
     error := error s; finished := finished s |}.

Definition with_error (s : Span) : Span :=
  {| name := name s; service := service s; resource := resource s; span_type := span_type s;
     parent := parent s; tags := tags s; http_meta := http_meta s;
     error := true; finished := finished s |}.

Definition with_finished (s : Span) : Span :=
  {| name := name s; service := service s; resource := resource s; span_type := span_type s;
     parent := parent s; tags := tags s; http_meta := http_meta s;
     error := error s; finished := true |}.

(** Modelled from the spec: what leaving its scope does to a span
    (sections 4.2, 6 and 7): the span is marked as errored when an
    exception leaves the scope, and it is finalized. *)
Definition exit_scope (raised : bool) (s : Span) : Span :=
  with_finished (if raised then with_error s else s).

(** Modelled from the spec: the context under which the children of a
    span are opened (section 5): the trace of the span's own parent
    context, with the span as parent.  The handle of a span serves as
    its id; the ids a tracer draws for a new trace are left open. *)
Definition span_context (span : nat) (parent : TraceContext) : TraceContext :=
  {| trace_id := trace_id parent; parent_span_id := Some (Z.of_nat span);
     sampling_priority := sampling_priority parent;
     extra_baggage := extra_baggage parent |}.

(** What the tracer has been asked to do, in order: a context activated,
    a span opened (with the arguments of [trace]), HTTP metadata
    recorded on a span, a span's scope left. *)
Inductive Event : Type :=
| EvActivate (ctx : TraceContext)
| EvSpanStart (span : nat) (name : string) (service resource : option string)
    (span_type : string)
| EvHttpMeta (span : nat) (meta : HttpMeta)
| EvSpanFinish (span : nat).

(** The tracer's state: the spans it has created (a span handle is the
    position of its span), the active context and the events so far. *)
Record TracerState : Type := {
  spans : list Span;
  active : TraceContext;
  log : list Event
}.

End Tracer.
Export Tracer.

(** ** Computations

    A Python call may change the tracer and the framework objects, and it
    returns or raises. *)

(** The exceptions the code tells apart: pyramid's [HTTPException], which
    is a response as well, and every other [BaseException]. *)
Inductive Exc : Type :=
| HTTPException (status_code : Z) (headers : Headers) (detail : string)
| OtherException (kind message : string).

Inductive Outcome (A : Type) : Type :=
| Return (a : A)
| Raise (e : Exc).
Arguments Return {A} a.
Arguments Raise {A} e.

(** The world of a call: the tracer and the framework's objects [F]. *)
Record World (F : Type) : Type := MkWorld {
  tracer_state : TracerState;
  framework : F
}.
Arguments MkWorld {F} _ _.
Arguments tracer_state {F} _.
Arguments framework {F} _.

Definition M (F A : Type) : Type := World F -> Outcome A * World F.

(** Whether a call ended by raising. *)
Definition raised {A} (o : Outcome A) : bool :=
  match o with
  | Return _ => false
  | Raise _ => true
  end.

Definition raise {F A} (e : Exc) : M F A := fun w => (Raise e, w).

#[global] Instance M_ret {F} : MRet (M F) :=
  fun A (a : A) w => (Return a, w).

#[global] Instance M_bind {F} : MBind (M F) :=
  fun A B (k : A -> M F B) (m : M F A) w =>
    match m w with
    | (Return a, w') => k a w'
    | (Raise e, w') => (Raise e, w')
    end.

Definition get_framework {F} : M F F := fun w => (Return (framework w), w).

Definition set_framework {F} (f : F) : M F unit :=
  fun w => (Return tt, MkWorld (tracer_state w) f).

Definition on_tracer {F A} (f : TracerState -> A * TracerState) : M F A :=
  fun w => let '(a, t) := f (tracer_state w) in (Return a, MkWorld t (framework w)).

(** The span behind a handle, and its resource. *)
Definition span_of {F} (i : nat) (w : World F) : option Span :=
  spans (tracer_state w) !! i.

Definition resource_of {F} (i : nat) (w : World F) : option (option string) :=
  resource <$> span_of i w.

(** [try: body finally: cleanup]: the clean-up runs on both ways out of
    [body] and sees how it ended; a clean-up that returns leaves the
    outcome of [body] in place. *)
Definition try_finally {F A} (body : M F A) (cleanup : Outcome A -> M F unit) : M F A :=
  fun w =>
    let '(o, w1) := body w in
    match cleanup o w1 with
    | (Return _, w2) => (o, w2)
    | (Raise e, w2) => (Raise e, w2)
    end.

(** ** Operations on spans *)

Section SpanOps.
Context {F : Type}.

Definition update_span (i : nat) (f : Span -> Span) : M F unit :=
  on_tracer (fun t =>
    (tt, {| spans := alter f i (spans t); active := active t; log := log t |})).

Definition read_span {A} (i : nat) (f : Span -> A) : M F (option A) :=
  on_tracer (fun t => (f <$> spans t !! i, t)).

(** Modelled from the spec: [span.set_tag(key, value)] and
    [span.set_tag_str(key, value)], the [setTag] of section 6. *)
Definition set_tag (span : nat) (key : string) (value : Py.PyVal) : M F unit :=
  update_span span (with_tag key value).

Definition set_tag_str (span : nat) (key value : string) : M F unit :=
  update_span span (with_tag key (Py.PStr value)).

(** Modelled from the spec: [span.get_tag(key)], [None] for a tag that
    was never set. *)
Definition get_tag (span : nat) (key : string) : M F (option Py.PyVal) :=
  on_tracer (fun t => (spans t !! span ≫= fun s => tags s !! key, t)).

(** Modelled from the spec: [span.resource = value], the [setResource] of
    section 6. *)
Definition set_resource (span : nat) (value : string) : M F unit :=
  update_span span (with_resource value).

(** Modelled from the spec: [trace_utils.set_http_meta(span, config, ...)]
    records the HTTP metadata it is given on the span (section 4.4).
    What the tracer derives from the metadata (its own tags, a mark for
    a server-error status) is left out: [error] holds the mark that a
    scope left by an exception sets. *)
Definition set_http_meta (span : nat) (m : HttpMeta) : M F unit :=
  on_tracer (fun t =>
    (tt, {| spans := alter (with_http_meta m) span (spans t); active := active t;
            log := log t ++ [EvHttpMeta span m] |})).

(** Modelled from the spec: [tracer.trace(name, service, resource,
    span_type)] opens a span under the active context and makes the new
    span the active one, so that spans opened in its scope are its
    children (sections 5 and 6); [None] is a service or resource left
    out. *)
Definition start_span (nm : string) (svc res : option string) (ty : string) : M F nat :=
  on_tracer (fun t =>
    let i := length (spans t) in
    (i, {| spans := spans t ++ [ {| name := nm; service := svc; resource := res;
                                    span_type := ty; parent := active t; tags := ∅;
                                    http_meta := []; error := false; finished := false |} ];
           active := span_context i (active t);
           log := log t ++ [EvSpanStart i nm svc res ty] |})).

(** Modelled from the spec: the end of the scope of a span (sections
    4.2, 5 and 6): the span is marked as errored when the scope is left
    by an exception, it is finalized, and the context it was opened
    under is the active one again. *)
Definition finish_span (i : nat) (raised : bool) : M F unit :=
  on_tracer (fun t =>
    (tt, {| spans := alter (exit_scope raised) i (spans t);
            active := default (active t) (parent <$> spans t !! i);
            log := log t ++ [EvSpanFinish i] |})).

(** Modelled from the spec: [with tracer.trace(...) as span: body], a
    scoped span that is finalized on every way out of the scope
    (section 6); an exception of the body marks the span and goes on to
    the caller. *)
Definition with_span {A} (nm : string) (svc res : option string) (ty : string)
    (body : nat -> M F A) : M F A :=
  span ← start_span nm svc res ty;
  try_finally (body span) (fun o => finish_span span (raised o)).

End SpanOps.

(** ** Framework objects the two files receive *)

Module MoltenHttp.

(** Modelled from the spec: what [molten.http.Request] exposes
    (section 6): method, scheme, host, port, path, query parameters and
    headers. *)
Record Request : Type := {
  method : string;
  scheme : string;
  host : string;
  port : Z;
  path : string;
  params : list (string * string);
  headers : Headers
}.

(** A WSGI [environ]. *)
Definition Environ : Type := gmap string Py.PyVal.

End MoltenHttp.

Module Wrapt.

(** A function attribute of a module or class: the function itself, or a
    [wrapt] function wrapper around what was there before. *)
Inductive Callable (W : Type) : Type :=
| Function (qualname : string)
| FunctionWrapper (wrapper : W) (wrapped : Callable W).
Arguments Function {W} qualname.
Arguments FunctionWrapper {W} wrapper wrapped.

(** [isinstance(f, wrapt.ObjectProxy)] *)
Definition is_proxy {W} (f : Callable W) : bool :=
  match f with
  | Function _ => false
  | FunctionWrapper _ _ => true
  end.

(** [wrap_function_wrapper(module, name, wrapper)] replaces the attribute
    by a wrapper around it. *)
Definition wrap_function_wrapper {W} (wrapper : W) (f : Callable W) : Callable W :=
  FunctionWrapper wrapper f.

(** [trace_utils.unwrap(obj, attr)] puts [f.__wrapped__] back in the
    place of [f]: [Some] of what a wrapper wraps, [None] for a function
    that is no wrapper, which has no [__wrapped__] so that the call
    raises [AttributeError]. *)
Definition unwrap {W} (f : Callable W) : option (Callable W) :=
  match f with
  | Function _ => None
  | FunctionWrapper _ g => Some g
  end.

(** How many wrappers sit on a function. *)
Fixpoint wrappers {W} (f : Callable W) : nat :=
  match f with
  | Function _ => 0%nat
  | FunctionWrapper _ g => S (wrappers g)
  end.

End Wrapt.

(** ** What the two files import

    Constants and helpers of modules that are not part of the sources.
    Their values play no role in the code's control flow, so they are
    parameters. *)

(** [SpanDirection] of [ddtrace.internal.schema.span_attribute_schema]. *)
Inductive SpanDirection : Type := INBOUND | OUTBOUND.

(** An integration's entry of [ddtrace.config]. *)
Record IntegrationConfig : Type := {
  integration_name : string;
  distributed_tracing : bool;
  (** [get_analytics_sample_rate(use_global_config=True)] *)
  analytics_sample_rate : Py.PyVal
}.

Class Imports : Type := {
  (** [ddtrace.internal.constants], [ddtrace.constants], [ddtrace.ext] *)
  COMPONENT : string;
  SPAN_KIND : string;
  SPAN_MEASURED_KEY : string;
  ANALYTICS_SAMPLE_RATE_KEY : string;
  SpanKind_SERVER : string;
  SpanTypes_WEB : string;
  SpanTypes_TEMPLATE : string;
  (** [ddtrace.contrib.molten.wrappers] *)
  MOLTEN_ROUTE : string;
  (** [ddtrace.internal.schema] *)
  schematize_service_name : string -> string;
  schematize_url_operation : string -> string -> SpanDirection -> string;
  (** [ddtrace.internal.compat] *)
  urlencode : list (string * string) -> string;
  (** [trace_utils.int_service] *)
  int_service : Pin -> IntegrationConfig -> string;
  (** [molten.http.Request.from_environ] *)
  from_environ : MoltenHttp.Environ -> MoltenHttp.Request;
  (** [pyramid.tweens.EXCVIEW] *)
  EXCVIEW : string;
  (** the header format of the distributed context extractor *)
  extract : Headers -> TraceContext;
  (** [ddtrace.config] and [ddtrace.tracer] *)
  config_molten : IntegrationConfig;
  config_pyramid : IntegrationConfig;
  config_analytics_enabled : bool;
  ddtrace_tracer : Tracer
}.

Section TraceUtils.
Context `{Imports} {F : Type}.

(** Modelled from the spec: [trace_utils.activate_distributed_headers]
    (section 4.3).  With distributed tracing on, the context extracted
    from the headers is activated; with it off, extraction is skipped and
    a fresh context is used.  [override], when given, decides in place of
    the integration's configuration. *)
Definition activate_distributed_headers (int_config : IntegrationConfig)
    (request_headers : Headers) (override : option bool) : M F unit :=
  on_tracer (fun t =>
    let ctx := if default (distributed_tracing int_config) override
               then extract request_headers else empty_context in
    (tt, {| spans := spans t; active := ctx; log := log t ++ [EvActivate ctx] |})).

End TraceUtils.

(** ** [ddtrace/contrib/molten/patch.py] *)

Module Molten.
Import MoltenHttp Wrapt.

(** The two wrappers [patch] installs. *)
Inductive Wrapper : Type := W_patch_app_init | W_patch_app_call.

(** The [molten] module as the file reads and writes it. *)
Record Module_ : Type := {
  _datadog_patch : bool;       (* [getattr(molten, "_datadog_patch", False)] *)
  _datadog_pin : option Pin;   (* what [Pin.get_from(molten)] finds *)
  BaseApp__init__ : Callable Wrapper;
  App__call__ : Callable Wrapper;
  __version__ : string
}.

(** A router, middleware, component or renderer of an application: the
    bare object, or one of the proxies of [wrappers.py] around it. *)
Inductive Entity : Type :=
| Bare (id : string)
| WrapperRouter (e : Entity)
| WrapperMiddleware (e : Entity)
| WrapperComponent (e : Entity)
| WrapperRenderer (e : Entity).

(** How many proxies sit on an entity. *)
Fixpoint proxies (e : Entity) : nat :=
  match e with
  | Bare _ => 0%nat
  | WrapperRouter e' | WrapperMiddleware e' | WrapperComponent e' | WrapperRenderer e' =>
      S (proxies e')
  end.

(** The application instance that [BaseApp.__init__] sets up. *)
Record App : Type := {
  router : Entity;
  middleware : list Entity;
  injector_components : list Entity;
  renderers : list Entity
}.

(** The framework objects: the module and the application instance. *)
Record State : Type := {
  molten : Module_;
  instance : App
}.

Definition Kwargs : Type := gmap string Py.PyVal.

(** WSGI's [start_response(status, headers, exc_info)]. *)
Definition StartResponse : Type :=
  string -> Headers -> option Exc -> Kwargs -> M State Py.PyVal.

(** The wrapped [App.__call__]: its name as [func_name] reports it, and
    the call. *)
Record WsgiApp : Type := {
  func_name : string;
  call : Environ * StartResponse -> Kwargs -> M State (list string)
}.

Section Patch.
Context `{Imports}.

(** [Pin.get_from(molten)] *)
Definition get_pin : M State (option Pin) :=
  st ← get_framework; mret (_datadog_pin (molten st)).

(** [not pin or not pin.enabled()] *)
Definition pin_off (pin : option Pin) : bool :=
  match pin with
  | None => true
  | Some p => negb (pin_enabled p)
  end.

Definition set_molten (m : Module_) : M State unit :=
  st ← get_framework; set_framework {| molten := m; instance := instance st |}.

Definition patch : M State unit :=
  st ← get_framework;
  let m := molten st in
  if _datadog_patch m then mret tt
  else
    let pin := {| pin_tracer := ddtrace_tracer |} in
    set_molten {| _datadog_patch := true;
                  _datadog_pin := Some pin;
                  BaseApp__init__ := wrap_function_wrapper W_patch_app_init (BaseApp__init__ m);
                  App__call__ := wrap_function_wrapper W_patch_app_call (App__call__ m);
                  __version__ := __version__ m |}.

(** [_u(obj, attr)] reads the attribute's [__wrapped__]. *)
Definition unwrapped (f : Callable Wrapper) : M State (Callable Wrapper) :=
  match unwrap f with
  | Some g => mret g
  | None => raise (OtherException "AttributeError" "__wrapped__")
  end.

Definition unpatch : M State unit :=
  st ← get_framework;
  let m := molten st in
  if _datadog_patch m then
    (* the flag is cleared and the pin removed before the attributes
       are unwrapped *)
    set_molten {| _datadog_patch := false;
                  _datadog_pin := None;
                  BaseApp__init__ := BaseApp__init__ m;
                  App__call__ := App__call__ m;
                  __version__ := __version__ m |};;
    init ← unwrapped (BaseApp__init__ m);
    set_molten {| _datadog_patch := false;
                  _datadog_pin := None;
                  BaseApp__init__ := init;
                  App__call__ := App__call__ m;
                  __version__ := __version__ m |};;
    call_ ← unwrapped (App__call__ m);
    set_molten {| _datadog_patch := false;
                  _datadog_pin := None;
                  BaseApp__init__ := init;
                  App__call__ := call_;
                  __version__ := __version__ m |}
  else mret tt.

(** The text [format] puts for the status code. *)
Definition format_code (code : StatusCode) : string :=
  match code with
  | CodeInt n => Py.str_of_int n
  | CodeStr s => s
  end.

(** [code = int(code)] under [try ... except ValueError: pass] *)
Definition parse_code (code : string) : StatusCode :=
  match Py.int code with
  | Some n => CodeInt n
  | None => CodeStr code
  end.

(** The arguments of [set_http_meta] in [_w_start_response]:
    [status_code=code]. *)
Definition status_meta (code : StatusCode) : HttpMeta :=
  {| hm_method := None; hm_url := None; hm_status_code := Some code;
     hm_query := None; hm_request_headers := None;
     hm_response_headers := None; hm_route := None |}.

(** The arguments of [set_http_meta] in [patch_app_call]: method, url,
    query and request headers. *)
Definition request_meta (request : Request) : HttpMeta :=
  let url := scheme request ++ "://" ++ host request ++ ":"
             ++ Py.str_of_int (port request) ++ path request in
  let query := urlencode (Py.dict (params request)) in
  {| hm_method := Some (method request); hm_url := Some url;
     hm_status_code := None; hm_query := Some query;
     hm_request_headers := Some (headers request);
     hm_response_headers := None; hm_route := None |}.

(** The closure [_w_start_response] of [patch_app_call], over the
    request span and the request. *)
Definition _w_start_response (span : nat) (request : Request)
    (wrapped : StartResponse) : StartResponse :=
  fun status headers exc_info kwargs =>
    pin ← get_pin;
    if pin_off pin then wrapped status headers exc_info kwargs
    else
      let '(code, _, _) := Py.partition_space status in
      let code := parse_code code in
      route ← get_tag span MOLTEN_ROUTE;
      (if negb (Py.truthy_opt route)
       then set_resource span (method request ++ " " ++ format_code code)
       else mret tt);;
      set_http_meta span (status_meta code);;
      wrapped status headers exc_info kwargs.

Definition patch_app_call (wrapped : WsgiApp) (args : Environ * StartResponse)
    (kwargs : Kwargs) : M State (list string) :=
  pin ← get_pin;
  match pin with
  | None => call wrapped args kwargs
  | Some pin =>
      if negb (pin_enabled pin) then call wrapped args kwargs
      else
        let '(environ, start_response) := args in
        let request := from_environ environ in
        let resource := func_name wrapped in
        activate_distributed_headers config_molten (Py.dict (headers request)) None;;
        with_span
          (schematize_url_operation "molten.request" "http" INBOUND)
          (Some (int_service pin config_molten)) (Some resource) SpanTypes_WEB
          (fun span =>
             set_tag_str span COMPONENT (integration_name config_molten);;
             set_tag_str span SPAN_KIND SpanKind_SERVER;;
             set_tag span SPAN_MEASURED_KEY Py.PNone;;
             set_tag span ANALYTICS_SAMPLE_RATE_KEY (analytics_sample_rate config_molten);;
             let start_response := _w_start_response span request start_response in
             set_http_meta span (request_meta request);;
             st ← get_framework;
             set_tag_str span "molten.version" (__version__ (molten st));;
             call wrapped (environ, start_response) kwargs)
  end.

(** [patch_app_init]: [wrapped] is the initializer it wraps, which sets
    up the instance. *)
Definition patch_app_init (wrapped : M State unit) : M State unit :=
  wrapped;;
  pin ← get_pin;
  if pin_off pin then mret tt
  else
    st ← get_framework;
    let app := instance st in
    set_framework
      {| molten := molten st;
         instance :=
           {| router := WrapperRouter (router app);
              middleware := WrapperMiddleware <$> middleware app;
              injector_components := WrapperComponent <$> injector_components app;
              renderers := WrapperRenderer <$> renderers app |} |}.

(** Calling [BaseApp.__init__] as it stands in the module: each
    [patch_app_init] wrapper on it runs around what it wraps;
    [original] is the framework's own initializer.  ([patch] puts no
    other wrapper on this attribute.) *)
Fixpoint call_init (f : Callable Wrapper) (original : M State unit) : M State unit :=
  match f with
  | Function _ => original
  | FunctionWrapper W_patch_app_init g => patch_app_init (call_init g original)
  | FunctionWrapper W_patch_app_call g => call_init g original
  end.

(** *** The wrappers in closed form

    What [patch_app_call] has done when it calls the application, what
    [_w_start_response] does before it forwards, and what the end of
    the scope does (lemmas [patch_app_call_run] and
    [_w_start_response_run]). *)

(** The tags on the request span when the application is called. *)
Definition request_tags (version : string) : gmap string Py.PyVal :=
  <["molten.version" := Py.PStr version]>
    (<[ANALYTICS_SAMPLE_RATE_KEY := analytics_sample_rate config_molten]>
       (<[SPAN_MEASURED_KEY := Py.PNone]>
          (<[SPAN_KIND := Py.PStr SpanKind_SERVER]>
             (<[COMPONENT := Py.PStr (integration_name config_molten)]> ∅)))).

(** The world in which the application is called. *)
Definition app_world (wrapped : WsgiApp) (pin : Pin) (environ : Environ)
    (w : World State) : World State :=
  let t := tracer_state w in
  let request := from_environ environ in
  let ctx := if distributed_tracing config_molten
             then extract (Py.dict (headers request)) else empty_context in
  let span_name := schematize_url_operation "molten.request" "http" INBOUND in
  let service := Some (int_service pin config_molten) in
  MkWorld
    {| spans := spans t ++
         [ {| name := span_name; service := service;
              resource := Some (func_name wrapped);
              span_type := SpanTypes_WEB; parent := ctx;
              tags := request_tags (__version__ (molten (framework w)));
              http_meta := [request_meta request]; error := false;
              finished := false |} ];
       active := span_context (length (spans t)) ctx;
       log := log t ++ [EvActivate ctx;
                        EvSpanStart (length (spans t)) span_name service
                          (Some (func_name wrapped)) SpanTypes_WEB;
                        EvHttpMeta (length (spans t)) (request_meta request)] |}
    (framework w).

(** The status code [_w_start_response] takes from a status line. *)
Definition status_code_of (status : string) : StatusCode :=
  let '(code, _, _) := Py.partition_space status in parse_code code.

(** The source's test [span.get_tag(MOLTEN_ROUTE)]: the span carries a
    route tag with a truthy value. *)
Definition has_route (s : Span) : bool := Py.truthy_opt (tags s !! MOLTEN_ROUTE).

(** What [_w_start_response] does to the request span. *)
Definition emit_on_span (request : Request) (code : StatusCode) (s : Span) : Span :=
  with_http_meta (status_meta code)
    (if negb (has_route s)
     then with_resource (method request ++ " " ++ format_code code) s
     else s).

(** The world in which [_w_start_response] forwards to the callback it
    wraps. *)
Definition emit_world (span : nat) (request : Request) (status : string)
    (w : World State) : World State :=
  let t := tracer_state w in
  let code := status_code_of status in
  MkWorld
    {| spans := alter (emit_on_span request code) span (spans t);
       active := active t;
       log := log t ++ [EvHttpMeta span (status_meta code)] |}
    (framework w).

(** The world after the scope of a span is left, the application having
    ended as [o] says. *)
Definition finished_world {A} (span : nat) (o : Outcome A) (w : World State)
    : World State :=
  let t := tracer_state w in
  MkWorld
    {| spans := alter (exit_scope (raised o)) span (spans t);
       active := default (active t) (parent <$> spans t !! span);
       log := log t ++ [EvSpanFinish span] |}
    (framework w).

End Patch.
End Molten.

(** ** [ddtrace/contrib/pyramid/trace.py] *)

Module Pyramid.
Import Wrapt.

Module Route.
(** [request.matched_route]: its [name] and [pattern]. *)
Record t : Type := { name : string; pattern : string }.
End Route.

Module Response.
(** A response: its [status_code] and [headers].  A response object is
    truthy; a handler that hands back [None] is the falsy case. *)
Record t : Type := { status_code : Z; headers : Headers }.
End Response.

Module Request.
(** The request object.  [matched_route] is [None] until the router
    finds a route; [_datadog_tracer] is the attribute [DD_TRACER],
    [None] while the attribute is not there. *)
Record t : Type := {
  method : string;
  path_url : string;
  query_string : string;
  headers : Headers;
  matched_route : option Route.t;
  _datadog_tracer : option Tracer
}.
End Request.

(** [registry.settings], by the keys of [constants.py]; [None] is a key
    that is not set. *)
Record Settings : Type := {
  SETTINGS_SERVICE : option string;
  SETTINGS_TRACER : option Tracer;
  SETTINGS_TRACE_ENABLED : option Py.PyVal;
  SETTINGS_DISTRIBUTED_TRACING : option Py.PyVal;
  SETTINGS_ANALYTICS_ENABLED : option Py.PyVal;
  SETTINGS_ANALYTICS_SAMPLE_RATE : option Py.PyVal
}.

Record Registry : Type := { settings : Settings }.

(** A tween or handler: called on the request object of the world, it
    returns a response (or [None]) or raises. *)
Definition Handler : Type := M Request.t (option Response.t).

(** An argument of [render]: a plain value, the request object, or some
    other object (truthy, without the tracer attribute). *)
Inductive Arg : Type :=
| ArgVal (v : Py.PyVal)
| ArgRequest
| ArgObject (id : string).

Definition RenderFn : Type := list Arg -> gmap string Arg -> M Request.t string.

Definition DD_TWEEN_NAME : string := "ddtrace.contrib.pyramid:trace_tween_factory".

Inductive Wrapper : Type := W_trace_render.

(** What [includeme] works on: the tweens added to the configurator
    (name and [over]) and [pyramid.renderers.RendererHelper.render]. *)
Record Install : Type := {
  tweens : list (string * string);
  RendererHelper_render : Callable Wrapper
}.

Definition lower_char (c : ascii) : ascii :=
  let n := nat_of_ascii c in
  if ((65 <=? n) && (n <=? 90))%nat then ascii_of_nat (n + 32) else c.

Fixpoint lower (s : string) : string :=
  match s with
  | EmptyString => EmptyString
  | String c rest => String (lower_char c) (lower rest)
  end.

(** [pyramid.settings.asbool] *)
Definition asbool (s : Py.PyVal) : bool :=
  match s with
  | Py.PNone => false
  | Py.PBool b => b
  | _ => bool_decide (lower (Py.strip (Py.str s)) ∈ ["t"; "true"; "y"; "yes"; "on"; "1"])
  end.

Section Trace.
Context `{Imports}.

Definition includeme : M Install unit :=
  config ← get_framework;
  set_framework {| tweens := tweens config ++ [(DD_TWEEN_NAME, EXCVIEW)];
                   RendererHelper_render := RendererHelper_render config |};;
  config ← get_framework;
  if negb (is_proxy (RendererHelper_render config)) then
    set_framework {| tweens := tweens config;
                     RendererHelper_render :=
                       wrap_function_wrapper W_trace_render (RendererHelper_render config) |}
  else mret tt.

(** The tracer that [trace_render] finds: [getattr(request, DD_TRACER,
    None)] on the [request] keyword argument, [None] without one. *)
Definition request_tracer (kwargs : gmap string Arg) (w : World Request.t)
    : option Tracer :=
  match kwargs !! "request" with
  | Some ArgRequest => Request._datadog_tracer (framework w)
  | _ => None
  end.

Definition trace_render (func : RenderFn) (args : list Arg) (kwargs : gmap string Arg)
    : M Request.t string :=
  match kwargs !! "request" with
  | None | Some (ArgVal _) | Some (ArgObject _) =>
      (* no request, a falsy one, or an object without [DD_TRACER] *)
      func args kwargs
  | Some ArgRequest =>
      request ← get_framework;
      match Request._datadog_tracer request with
      | None => func args kwargs
      | Some tracer =>
          with_span "pyramid.render" None None SpanTypes_TEMPLATE
            (fun span =>
               set_tag_str span COMPONENT (integration_name config_pyramid);;
               func args kwargs)
      end
  end.

(** The local [response] when the [finally] block starts: the
    handler's value, the [HTTPException] it raised, or still [None]. *)
Definition response_of (o : Outcome (option Response.t)) : option Response.t :=
  match o with
  | Return response => response
  | Raise (HTTPException status_code headers _) =>
      Some {| Response.status_code := status_code; Response.headers := headers |}
  | Raise (OtherException _ _) => None
  end.

(** The local [status] when the [finally] block starts: [500] after
    [except BaseException], else still [None]. *)
Definition status_of (o : Outcome (option Response.t)) : option Z :=
  match o with
  | Raise (OtherException _ _) => Some 500
  | _ => None
  end.

Definition setattr_DD_TRACER (tracer : Tracer) : M Request.t unit :=
  request ← get_framework;
  set_framework {| Request.method := Request.method request;
                   Request.path_url := Request.path_url request;
                   Request.query_string := Request.query_string request;
                   Request.headers := Request.headers request;
                   Request.matched_route := Request.matched_route request;
                   Request._datadog_tracer := Some tracer |}.

(** The arguments of the call of [set_http_meta] in the [finally]
    block. *)
Definition final_http_meta (request : Request.t) (o : Outcome (option Response.t))
    : HttpMeta :=
  let '(status, response_headers) :=
    match response_of o with
    | Some response =>
        (Some (Response.status_code response), Some (Response.headers response))
    | None => (status_of o, None)
    end in
  {| hm_method := Some (Request.method request);
     hm_url := Some (Request.path_url request);
     hm_status_code := CodeInt <$> status;
     hm_query := Some (Request.query_string request);
     hm_request_headers := Some (Request.headers request);
     hm_response_headers := response_headers;
     hm_route := Route.pattern <$> Request.matched_route request |}.

(** The [finally] block of [trace_tween]. *)
Definition trace_tween_finally (span : nat) (o : Outcome (option Response.t))
    : M Request.t unit :=
  request ← get_framework;
  match Request.matched_route request with
  | Some route =>
      set_resource span (Request.method request ++ " " ++ Route.name route);;
      set_tag_str span "pyramid.route.name" (Route.name route)
  | None => mret tt
  end;;
  set_http_meta span (final_http_meta request o).

(** The closure [trace_tween], over [handler] and the configuration
    that [trace_tween_factory] has read. *)
Definition trace_tween (handler : Handler) (settings : Settings) (service : string)
    (tracer : Tracer) (distributed_tracing : bool) : Handler :=
  request ← get_framework;
  activate_distributed_headers config_pyramid (Request.headers request)
    (Some distributed_tracing);;
  let span_name := schematize_url_operation "pyramid.request" "http" INBOUND in
  with_span span_name (Some service) (Some "404") SpanTypes_WEB
    (fun span =>
       set_tag_str span COMPONENT (integration_name config_pyramid);;
       set_tag_str span SPAN_KIND SpanKind_SERVER;;
       set_tag span SPAN_MEASURED_KEY Py.PNone;;
       let analytics_enabled := default Py.PNone (SETTINGS_ANALYTICS_ENABLED settings) in
       (if (config_analytics_enabled && negb (bool_decide (analytics_enabled = Py.PBool false)))
           || bool_decide (analytics_enabled = Py.PBool true)
        then set_tag span ANALYTICS_SAMPLE_RATE_KEY
               (default (Py.PBool true) (SETTINGS_ANALYTICS_SAMPLE_RATE settings))
        else mret tt);;
       setattr_DD_TRACER tracer;;
       try_finally handler (trace_tween_finally span)).

Definition trace_tween_factory (handler : Handler) (registry : Registry) : Handler :=
  let settings := settings registry in
  let service :=
    match SETTINGS_SERVICE settings with
    | Some s => if String.eqb s "" then schematize_service_name "pyramid" else s
    | None => schematize_service_name "pyramid"
    end in
  let tracer := default ddtrace_tracer (SETTINGS_TRACER settings) in
  let enabled :=
    asbool (default (Py.PBool (enabled tracer)) (SETTINGS_TRACE_ENABLED settings)) in
  let distributed_tracing :=
    asbool (default (Py.PBool true) (SETTINGS_DISTRIBUTED_TRACING settings)) in
  if enabled then trace_tween handler settings service tracer distributed_tracing
  else handler.

(** *** The tween in closed form

    What [trace_tween] has done when it calls the handler, and what it
    does once the handler is back (lemma [trace_tween_run]). *)

(** The tags on the request span when the handler is called. *)
Definition tween_tags (settings : Settings) : gmap string Py.PyVal :=
  let fixed :=
    <[SPAN_MEASURED_KEY := Py.PNone]>
      (<[SPAN_KIND := Py.PStr SpanKind_SERVER]>
         (<[COMPONENT := Py.PStr (integration_name config_pyramid)]> ∅)) in
  let analytics_enabled := default Py.PNone (SETTINGS_ANALYTICS_ENABLED settings) in
  if (config_analytics_enabled && negb (bool_decide (analytics_enabled = Py.PBool false)))
     || bool_decide (analytics_enabled = Py.PBool true)
  then <[ANALYTICS_SAMPLE_RATE_KEY :=
           default (Py.PBool true) (SETTINGS_ANALYTICS_SAMPLE_RATE settings)]> fixed
  else fixed.

(** The world in which the handler is called. *)
Definition handler_world (settings : Settings) (service : string) (tracer : Tracer)
    (distributed_tracing : bool) (w : World Request.t) : World Request.t :=
  let t := tracer_state w in
  let request := framework w in
  let ctx := if distributed_tracing then extract (Request.headers request)
             else empty_context in
  let span_name := schematize_url_operation "pyramid.request" "http" INBOUND in
  MkWorld
    {| spans := spans t ++
         [ {| name := span_name; service := Some service; resource := Some "404";
              span_type := SpanTypes_WEB; parent := ctx; tags := tween_tags settings;
              http_meta := []; error := false; finished := false |} ];
       active := span_context (length (spans t)) ctx;
       log := log t ++ [EvActivate ctx;
                        EvSpanStart (length (spans t)) span_name (Some service)
                          (Some "404") SpanTypes_WEB] |}
    {| Request.method := Request.method request;
       Request.path_url := Request.path_url request;
       Request.query_string := Request.query_string request;
       Request.headers := Request.headers request;
       Request.matched_route := Request.matched_route request;
       Request._datadog_tracer := Some tracer |}.

(** What the [finally] block and the end of the scope do to the request
    span: the route and the metadata are recorded, then the scope is
    left, by an exception when the handler raised. *)
Definition close_span (request : Request.t) (o : Outcome (option Response.t)) (s : Span)
    : Span :=
  exit_scope (raised o)
    (with_http_meta (final_http_meta request o)
       match Request.matched_route request with
       | Some route =>
           with_tag "pyramid.route.name" (Py.PStr (Route.name route))
             (with_resource (Request.method request ++ " " ++ Route.name route) s)
       | None => s
       end).

(** The world the tween leaves, from the world the handler left. *)
Definition closing_world (span : nat) (o : Outcome (option Response.t))
    (w : World Request.t) : World Request.t :=
  let t := tracer_state w in
  MkWorld
    {| spans := alter (close_span (framework w) o) span (spans t);
       active := default (active t) (parent <$> spans t !! span);
       log := log t ++ [EvHttpMeta span (final_http_meta (framework w) o);
                        EvSpanFinish span] |}
    (framework w).

(** *** The render wrapper in closed form (lemma [trace_render_run]) *)

(** The world in which a traced [render] calls the original function. *)
Definition render_world (w : World Request.t) : World Request.t :=
  let t := tracer_state w in
  MkWorld
    {| spans := spans t ++
         [ {| name := "pyramid.render"; service := None; resource := None;
              span_type := SpanTypes_TEMPLATE; parent := active t;
              tags := <[COMPONENT := Py.PStr (integration_name config_pyramid)]> ∅;
              http_meta := []; error := false; finished := false |} ];
       active := span_context (length (spans t)) (active t);
       log := log t ++ [EvSpanStart (length (spans t)) "pyramid.render" None None
                          SpanTypes_TEMPLATE] |}
    (framework w).

(** The world after the scope of the render span is left, the original
    function having ended as [o] says. *)
Definition render_done {A} (span : nat) (o : Outcome A) (w : World Request.t)
    : World Request.t :=
  let t := tracer_state w in
  MkWorld
    {| spans := alter (exit_scope (raised o)) span (spans t);
       active := default (active t) (parent <$> spans t !! span);
       log := log t ++ [EvSpanFinish span] |}
    (framework w).

End Trace.
End Pyramid.

(** ** A sample environment

    Values for the imports, and small worlds, on which the definitions can
    be run. *)

Module Sample.
Import MoltenHttp.

Definition lookup_str (k : string) (environ : Environ) : string :=
  match environ !! k with
  | Some (Py.PStr s) => s
  | _ => ""
  end.

Definition sample_from_environ (environ : Environ) : Request :=
  {| method := lookup_str "REQUEST_METHOD" environ;
     scheme := lookup_str "wsgi.url_scheme" environ;
     host := lookup_str "SERVER_NAME" environ;
     port := match environ !! "SERVER_PORT" with Some (Py.PInt p) => p | _ => 80 end;
     path := lookup_str "PATH_INFO" environ;
     params := [];
     headers := match environ !! "HTTP_X_DATADOG_TRACE_ID" with
                | Some (Py.PStr s) => [("x-datadog-trace-id", s)]
                | _ => []
                end |}.

Definition sample_extract (hs : Headers) : TraceContext :=
  match hs with
  | ("x-datadog-trace-id", s) :: _ =>
      {| trace_id := Py.int s; parent_span_id := None; sampling_priority := None;
         extra_baggage := [] |}
  | _ => empty_context
  end.

Definition sample_urlencode (d : list (string * string)) : string :=
  String.concat "&" ((fun kv => fst kv ++ "=" ++ snd kv) <$> d).

#[local] Instance sample_imports : Imports := {|
  COMPONENT := "component";
  SPAN_KIND := "span.kind";
  SPAN_MEASURED_KEY := "_dd.measured";
  ANALYTICS_SAMPLE_RATE_KEY := "_dd1.sr.eausr";
  SpanKind_SERVER := "server";
  SpanTypes_WEB := "web";
  SpanTypes_TEMPLATE := "template";
  MOLTEN_ROUTE := "molten.route";
  schematize_service_name := fun s => s;
  schematize_url_operation := fun s _ _ => s;
  urlencode := sample_urlencode;
  int_service := fun _ c => integration_name c;
  from_environ := sample_from_environ;
  EXCVIEW := "pyramid.tweens.excview_tween_factory";
  extract := sample_extract;
  config_molten := {| integration_name := "molten"; distributed_tracing := true;
                      analytics_sample_rate := Py.PNone |};
  config_pyramid := {| integration_name := "pyramid"; distributed_tracing := true;
                       analytics_sample_rate := Py.PNone |};
  config_analytics_enabled := false;
  ddtrace_tracer := {| tracer_name := "ddtrace.tracer"; enabled := true |}
|}.

(** A tracer that has done nothing yet. *)
Definition fresh_tracer : TracerState :=
  {| spans := []; active := empty_context; log := [] |}.

(** *** molten *)

Definition fresh_module : Molten.Module_ :=
  {| Molten._datadog_patch := false;
     Molten._datadog_pin := None;
     Molten.BaseApp__init__ := Wrapt.Function "molten.app.BaseApp.__init__";
     Molten.App__call__ := Wrapt.Function "molten.app.App.__call__";
     Molten.__version__ := "1.0.2" |}.

Definition bare_app : Molten.App :=
  {| Molten.router := Molten.Bare "router";
     Molten.middleware := [Molten.Bare "ResponseRendererMiddleware"];
     Molten.injector_components := [Molten.Bare "SettingsComponent"; Molten.Bare "DB"];
     Molten.renderers := [Molten.Bare "JSONRenderer"] |}.

Definition pin_with (on : bool) : Pin :=
  {| pin_tracer := {| tracer_name := "ddtrace.tracer"; enabled := on |} |}.

(** The module after [patch], with a pin whose tracer is on or off. *)
Definition patched_module (on : bool) : Molten.Module_ :=
  {| Molten._datadog_patch := true;
     Molten._datadog_pin := Some (pin_with on);
     Molten.BaseApp__init__ :=
       Wrapt.FunctionWrapper Molten.W_patch_app_init (Wrapt.Function "molten.app.BaseApp.__init__");
     Molten.App__call__ :=
       Wrapt.FunctionWrapper Molten.W_patch_app_call (Wrapt.Function "molten.app.App.__call__");
     Molten.__version__ := "1.0.2" |}.

Definition molten_world (m : Molten.Module_) : World Molten.State :=
  MkWorld fresh_tracer {| Molten.molten := m; Molten.instance := bare_app |}.

Definition get_environ (p : string) : Environ :=
  <["REQUEST_METHOD" := Py.PStr "GET"]>
    (<["wsgi.url_scheme" := Py.PStr "http"]>
       (<["SERVER_NAME" := Py.PStr "localhost"]>
          (<["SERVER_PORT" := Py.PInt 8000]>
             (<["PATH_INFO" := Py.PStr p]> ∅)))).

Definition molten_world_with (m : Molten.Module_) (sps : list Span) : World Molten.State :=
  MkWorld {| spans := sps; active := empty_context; log := [] |}
    {| Molten.molten := m; Molten.instance := bare_app |}.

(** A request span on which no route has been recorded, and one on which
    the router wrapper has recorded a route. *)
Definition unrouted_span : Span :=
  {| name := "molten.request"; service := Some "molten";
     resource := Some "molten.app.App.__call__"; span_type := "web";
     parent := empty_context; tags := ∅; http_meta := []; error := false;
     finished := false |}.



Definition get_molten_request : Request :=
  {| method := "GET"; scheme := "http"; host := "localhost"; port := 8000;
     path := "/nothing"; params := []; headers := [] |}.

(** The server's own [start_response]. *)
Definition server_start_response : Molten.StartResponse :=
  fun _ _ _ _ => mret Py.PNone.

(** An application that finds no route: it answers with the status line
    it is given and an empty body. *)
Definition app_answering (status : string) : Molten.WsgiApp :=
  {| Molten.func_name := "molten.app.App.__call__";
     Molten.call := fun args kwargs =>
       let '(_, start_response) := args in
       start_response status [] None ∅;; mret [] |}.

(** An application that returns without calling [start_response]. *)
Definition app_silent : Molten.WsgiApp :=
  {| Molten.func_name := "molten.app.App.__call__";
     Molten.call := fun _ _ => mret [] |}.

(** An application that raises. *)
Definition app_raising (e : Exc) : Molten.WsgiApp :=
  {| Molten.func_name := "molten.app.App.__call__";
     Molten.call := fun _ _ => raise e |}.

(** An initializer that raises. *)
Definition failing_init : M Molten.State unit :=
  fun w => (Raise (OtherException "TypeError" "bad argument"), w).

(** *** pyramid *)

Definition get_request (p : string) (route : option Pyramid.Route.t) : Pyramid.Request.t :=
  {| Pyramid.Request.method := "GET";
     Pyramid.Request.path_url := "http://localhost" ++ p;
     Pyramid.Request.query_string := "";
     Pyramid.Request.headers := [];
     Pyramid.Request.matched_route := route;
     Pyramid.Request._datadog_tracer := None |}.

Definition pyramid_world (r : Pyramid.Request.t) : World Pyramid.Request.t :=
  MkWorld fresh_tracer r.

Definition no_settings : Pyramid.Settings :=
  {| Pyramid.SETTINGS_SERVICE := None;
     Pyramid.SETTINGS_TRACER := None;
     Pyramid.SETTINGS_TRACE_ENABLED := None;
     Pyramid.SETTINGS_DISTRIBUTED_TRACING := None;
     Pyramid.SETTINGS_ANALYTICS_ENABLED := None;
     Pyramid.SETTINGS_ANALYTICS_SAMPLE_RATE := None |}.

(** A handler that answers with a status code. *)
Definition handler_answering (code : Z) : Pyramid.Handler :=
  mret (Some {| Pyramid.Response.status_code := code; Pyramid.Response.headers := [] |}).

(** Settings that switch tracing on for a tracer that is disabled. *)
Definition disabled_tracer : Tracer := {| tracer_name := "ddtrace.tracer"; enabled := false |}.

Definition forced_settings : Pyramid.Settings :=
  {| Pyramid.SETTINGS_SERVICE := None;
     Pyramid.SETTINGS_TRACER := Some disabled_tracer;
     Pyramid.SETTINGS_TRACE_ENABLED := Some (Py.PBool true);
     Pyramid.SETTINGS_DISTRIBUTED_TRACING := None;
     Pyramid.SETTINGS_ANALYTICS_ENABLED := None;
     Pyramid.SETTINGS_ANALYTICS_SAMPLE_RATE := None |}.

(** Settings that switch tracing off. *)
Definition off_settings : Pyramid.Settings :=
  {| Pyramid.SETTINGS_SERVICE := None;
     Pyramid.SETTINGS_TRACER := None;
     Pyramid.SETTINGS_TRACE_ENABLED := Some (Py.PStr "false");
     Pyramid.SETTINGS_DISTRIBUTED_TRACING := None;
     Pyramid.SETTINGS_ANALYTICS_ENABLED := None;
     Pyramid.SETTINGS_ANALYTICS_SAMPLE_RATE := None |}.

(** A request on which the tween has put a tracer. *)
Definition traced_request (tracer : Tracer) : Pyramid.Request.t :=
  {| Pyramid.Request.method := "GET";
     Pyramid.Request.path_url := "http://localhost/";
     Pyramid.Request.query_string := "";
     Pyramid.Request.headers := [];
     Pyramid.Request.matched_route := None;
     Pyramid.Request._datadog_tracer := Some tracer |}.

(** Settings that switch the analytics sample rate on, with a rate. *)
Definition analytics_settings : Pyramid.Settings :=
  {| Pyramid.SETTINGS_SERVICE := None;
     Pyramid.SETTINGS_TRACER := None;
     Pyramid.SETTINGS_TRACE_ENABLED := None;
     Pyramid.SETTINGS_DISTRIBUTED_TRACING := None;
     Pyramid.SETTINGS_ANALYTICS_ENABLED := Some (Py.PBool true);
     Pyramid.SETTINGS_ANALYTICS_SAMPLE_RATE := Some (Py.PFloat "0.5") |}.

(** The keyword arguments of a [render] call that passes the request. *)
Definition request_kwargs : gmap string Pyramid.Arg := {["request" := Pyramid.ArgRequest]}.

(** The original [render]. *)
Definition render : Pyramid.RenderFn := fun _ _ => mret "<html></html>".

(** A handler that renders a template with the request and answers
    with 200. *)
Definition handler_rendering : Pyramid.Handler :=
  Pyramid.trace_render render [] request_kwargs;; handler_answering 200.

Definition index_route : Pyramid.Route.t :=
  {| Pyramid.Route.name := "index"; Pyramid.Route.pattern := "/" |}.

Definition fresh_install : World Pyramid.Install :=
  MkWorld fresh_tracer
    {| Pyramid.tweens := [];
       Pyramid.RendererHelper_render := Wrapt.Function "RendererHelper.render" |}.

(** A [BaseApp.__init__] that leaves the instance as it is set up. *)
Definition original_init : M Molten.State unit := mret tt.

Definition boom : Exc := OtherException "ZeroDivisionError" "division by zero".

(** A handler that raises. *)
Definition handler_raising (e : Exc) : Pyramid.Handler :=
  fun w => (Raise e, w).

End Sample.

(** * Properties *)

(** ** Python's built-ins *)

Section PyFacts.

Lemma partition_space_cons c s :
  Py.partition_space (String c s) =
    if Ascii.eqb c " "%char then ("", " ", s)
    else let '(h, sep, t) := Py.partition_space s in (String c h, sep, t).
Proof. reflexivity. Qed.

Lemma more_digits_cons c rest acc :
  Py.more_digits (String c rest) acc =
    if Ascii.eqb c "_"%char then
      match rest with
      | EmptyString => None
      | String d rest' =>
          match Py.digit_value d with
          | Some v => Py.more_digits rest' (10 * acc + v)
          | None => None
          end
      end
    else match Py.digit_value c with
         | Some v => Py.more_digits rest (10 * acc + v)
         | None => None
         end.
Proof. reflexivity. Qed.

Lemma more_digits_digit c v rest acc :
  Ascii.eqb c "_"%char = false -> Py.digit_value c = Some v ->
  Py.more_digits (String c rest) acc = Py.more_digits rest (10 * acc + v).
Proof. intros Hu Hd. rewrite more_digits_cons, Hu, Hd. reflexivity. Qed.

Lemma unsigned_digits_cons c rest :
  Py.unsigned_digits (String c rest) =
    match Py.digit_value c with
    | Some v => Py.more_digits rest v
    | None => None
    end.
Proof. reflexivity. Qed.

Lemma unsigned_digits_digit c v rest :
  Py.digit_value c = Some v ->
  Py.unsigned_digits (String c rest) = Py.more_digits rest v.
Proof. intros Hd. rewrite unsigned_digits_cons, Hd. reflexivity. Qed.

Lemma all_chars_cons p c s :
  Py.all_chars p (String c s) = p c && Py.all_chars p s.
Proof. reflexivity. Qed.

Lemma lstrip_by_cons p c s :
  Py.lstrip_by p (String c s) = if p c then Py.lstrip_by p s else String c s.
Proof. reflexivity. Qed.

Lemma rev_string_cons c s acc :
  Py.rev_string (String c s) acc = Py.rev_string s (String c acc).
Proof. reflexivity. Qed.

Lemma partition_space_token tok rest :
  Py.all_chars Py.not_space tok = true ->
  Py.partition_space (tok ++ String " " rest) = (tok, " ", rest).
Proof.
  induction tok as [|c tok IH]; intros Hc; [reflexivity|].
  rewrite all_chars_cons in Hc. apply andb_prop in Hc as [Hc Htok]. unfold Py.not_space in Hc.
  apply negb_true_iff in Hc.
  change (String c tok ++ String " " rest) with (String c (tok ++ String " " rest)).
  rewrite partition_space_cons, Hc, (IH Htok). reflexivity.
Qed.

Lemma partition_space_whole tok :
  Py.all_chars Py.not_space tok = true ->
  Py.partition_space tok = (tok, "", "").
Proof.
  induction tok as [|c tok IH]; intros Hc; [reflexivity|].
  rewrite all_chars_cons in Hc. apply andb_prop in Hc as [Hc Htok]. unfold Py.not_space in Hc.
  apply negb_true_iff in Hc.
  rewrite partition_space_cons, Hc, (IH Htok). reflexivity.
Qed.

Lemma pretty_N_char_digit x :
  (x < 10)%N ->
  Py.digit_value (pretty_N_char x) = Some (Z.of_N x)
  /\ Ascii.eqb (pretty_N_char x) "_" = false
  /\ Py.not_white (pretty_N_char x) = true
  /\ Py.not_space (pretty_N_char x) = true.
Proof.
  intros Hx.
  assert (x = 0 \/ x = 1 \/ x = 2 \/ x = 3 \/ x = 4 \/ x = 5 \/ x = 6 \/ x = 7 \/ x = 8
          \/ x = 9)%N as Hcases by lia.
  repeat (destruct Hcases as [->|Hcases]; [vm_compute; repeat split|]).
  subst x. vm_compute. repeat split.
Qed.

(** Reading back the digits that [pretty_N_go] writes in front of [s]. *)
Lemma unsigned_digits_pretty_go x :
  (0 < x)%N ->
  forall s, Py.unsigned_digits (pretty_N_go x s) = Py.more_digits s (Z.of_N x).
Proof.
  induction (N.lt_wf_0 x) as [x _ IH]. intros Hpos s.
  rewrite pretty_N_go_step by exact Hpos.
  destruct (pretty_N_char_digit (x `mod` 10)%N) as (Hd & Hu & _);
    [apply N.mod_lt; lia|].
  assert (Hx : (x = 10 * (x `div` 10) + x `mod` 10)%N) by (apply N.div_mod; lia).
  destruct (decide (x `div` 10 = 0)%N) as [Hz|Hnz].
  - rewrite Hz, pretty_N_go_0, (unsigned_digits_digit _ _ _ Hd).
    rewrite Hz, N.mul_0_r, N.add_0_l in Hx. rewrite <- Hx. reflexivity.
  - rewrite IH; [|apply N.div_lt; lia|apply N.neq_0_lt_0; exact Hnz].
    rewrite (more_digits_digit _ _ _ _ Hu Hd). f_equal.
    transitivity (Z.of_N (10 * (x `div` 10) + x `mod` 10));
      [rewrite N2Z.inj_add, N2Z.inj_mul; reflexivity | rewrite <- Hx; reflexivity].
Qed.

Lemma all_chars_pretty_go p x :
  (forall d, (d < 10)%N -> p (pretty_N_char d) = true) ->
  forall s, Py.all_chars p s = true -> Py.all_chars p (pretty_N_go x s) = true.
Proof.
  intros Hp. induction (N.lt_wf_0 x) as [x _ IH]. intros s Hs.
  destruct (decide (x = 0)%N) as [->|Hnz]; [rewrite pretty_N_go_0; exact Hs|].
  rewrite pretty_N_go_step by lia. apply IH; [apply N.div_lt; lia|].
  rewrite all_chars_cons, Hs, Hp; [reflexivity|apply N.mod_lt; lia].
Qed.

Lemma all_chars_str_of_int p z :
  p "-"%char = true ->
  (forall d, (d < 10)%N -> p (pretty_N_char d) = true) ->
  Py.all_chars p (Py.str_of_int z) = true.
Proof.
  intros Hm Hp. unfold Py.str_of_int, pretty, pretty_Z.
  destruct z as [|x|x].
  - change "0" with (String (pretty_N_char 0) "").
    rewrite all_chars_cons, (Hp 0%N) by lia. reflexivity.
  - unfold pretty, pretty_positive, pretty, pretty_N.
    destruct (decide (N.pos x = 0%N)); [discriminate|].
    apply all_chars_pretty_go; [exact Hp|reflexivity].
  - unfold pretty, pretty_positive, pretty, pretty_N.
    destruct (decide (N.pos x = 0%N)); [discriminate|].
    change ("-" +:+ pretty_N_go (N.pos x) "") with (String "-" (pretty_N_go (N.pos x) "")).
    rewrite all_chars_cons, Hm. apply all_chars_pretty_go; [exact Hp|reflexivity].
Qed.

(** The decimal form of an integer holds no white space. *)
Lemma str_of_int_not_white z : Py.all_chars Py.not_white (Py.str_of_int z) = true.
Proof.
  apply all_chars_str_of_int; [reflexivity|]. intros d Hd. apply (pretty_N_char_digit d Hd).
Qed.

Lemma str_of_int_not_space z : Py.all_chars Py.not_space (Py.str_of_int z) = true.
Proof.
  apply all_chars_str_of_int; [reflexivity|]. intros d Hd. apply (pretty_N_char_digit d Hd).
Qed.

Lemma all_chars_rev_string p s acc :
  Py.all_chars p (Py.rev_string s acc) = Py.all_chars p s && Py.all_chars p acc.
Proof.
  revert acc. induction s as [|c s IH]; intros acc; [reflexivity|].
  rewrite rev_string_cons, IH, !all_chars_cons.
  destruct (p c), (Py.all_chars p s); reflexivity.
Qed.

Lemma rev_string_rev_string s a b :
  Py.rev_string (Py.rev_string s a) b = Py.rev_string a (s ++ b).
Proof.
  revert a b. induction s as [|c s IH]; intros a b; [reflexivity|].
  change (Py.rev_string (Py.rev_string s (String c a)) b = Py.rev_string a (String c (s ++ b))).
  rewrite IH. reflexivity.
Qed.

Lemma append_empty_r (s : string) : s ++ "" = s.
Proof.
  induction s as [|c s IH]; [reflexivity|].
  change (String c (s ++ "") = String c s). f_equal. exact IH.
Qed.

(** Stripping leaves a string without white space as it is. *)
Lemma lstrip_not_white s :
  Py.all_chars Py.not_white s = true -> Py.lstrip_by Py.is_c_space s = s.
Proof.
  destruct s as [|c s]; intros Hs; [reflexivity|].
  rewrite all_chars_cons in Hs. apply andb_prop in Hs as [Hc _]. unfold Py.not_white in Hc.
  apply negb_true_iff in Hc. rewrite lstrip_by_cons, Hc. reflexivity.
Qed.

Lemma strip_not_white s :
  Py.all_chars Py.not_white s = true -> Py.strip_by Py.is_c_space s = s.
Proof.
  intros Hs. unfold Py.strip_by. rewrite (lstrip_not_white s Hs).
  rewrite lstrip_not_white by (rewrite all_chars_rev_string, Hs; reflexivity).
  rewrite rev_string_rev_string. apply append_empty_r.
Qed.

(** Stripping takes away none of the characters that fail a test which
    white space passes. *)
Lemma all_chars_lstrip_by p q s :
  (forall c, q c = true -> p c = true) ->
  Py.all_chars p s = false -> Py.all_chars p (Py.lstrip_by q s) = false.
Proof.
  intros Hq. induction s as [|c s IH]; intros Hs; [discriminate Hs|].
  rewrite lstrip_by_cons. destruct (q c) eqn:Hc; [|exact Hs].
  apply IH. rewrite all_chars_cons, (Hq c Hc) in Hs. exact Hs.
Qed.

Lemma all_chars_strip_by p q s :
  (forall c, q c = true -> p c = true) ->
  Py.all_chars p s = false -> Py.all_chars p (Py.strip_by q s) = false.
Proof.
  intros Hq Hs. unfold Py.strip_by.
  rewrite all_chars_rev_string, (all_chars_lstrip_by p q _ Hq); [reflexivity|].
  rewrite all_chars_rev_string, (all_chars_lstrip_by p q _ Hq Hs). reflexivity.
Qed.

Lemma int_char_digit c v : Py.digit_value c = Some v -> Py.int_char c = true.
Proof. intros Hd. unfold Py.int_char. rewrite Hd. reflexivity. Qed.

Lemma int_char_c_space c : Py.is_c_space c = true -> Py.int_char c = true.
Proof.
  intros Hc. unfold Py.int_char. rewrite Hc.
  destruct (Py.digit_value c); [reflexivity|]. rewrite !orb_true_r. reflexivity.
Qed.

(** What [int] reads as digits is made of digits and underscores. *)
Lemma more_digits_int_char s acc v :
  Py.more_digits s acc = Some v -> Py.all_chars Py.int_char s = true.
Proof.
  assert (Hall : forall n s, (String.length s <= n)%nat ->
            forall acc v, Py.more_digits s acc = Some v ->
                          Py.all_chars Py.int_char s = true).
  { clear s acc v. induction n as [|n IH]; intros s Hlen acc v Hm.
    - destruct s; [reflexivity | cbn in Hlen; lia].
    - destruct s as [|c rest]; [reflexivity|].
      rewrite more_digits_cons in Hm. rewrite all_chars_cons.
      destruct (Ascii.eqb c "_") eqn:Hu.
      + apply Ascii.eqb_eq in Hu. subst c.
        destruct rest as [|d rest']; [discriminate Hm|].
        destruct (Py.digit_value d) as [vd|] eqn:Hd; [|discriminate Hm].
        rewrite all_chars_cons, (int_char_digit d vd Hd).
        rewrite (IH rest') with (acc := 10 * acc + vd) (v := v);
          [reflexivity | cbn in Hlen; lia | exact Hm].
      + destruct (Py.digit_value c) as [vc|] eqn:Hd; [|discriminate Hm].
        rewrite (int_char_digit c vc Hd).
        rewrite (IH rest) with (acc := 10 * acc + vc) (v := v);
          [reflexivity | cbn in Hlen; lia | exact Hm]. }
  apply (Hall (String.length s) s). lia.
Qed.

Lemma unsigned_digits_int_char s v :
  Py.unsigned_digits s = Some v -> Py.all_chars Py.int_char s = true.
Proof.
  destruct s as [|c rest]; [discriminate|]. rewrite unsigned_digits_cons, all_chars_cons.
  destruct (Py.digit_value c) as [vc|] eqn:Hd; [|discriminate].
  intros Hm. rewrite (int_char_digit c vc Hd), (more_digits_int_char rest vc v Hm). reflexivity.
Qed.

(** [int] raises on a string that holds a character other than a digit,
    a sign, an underscore or white space. *)
Lemma int_int_char s n : Py.int s = Some n -> Py.all_chars Py.int_char s = true.
Proof.
  intros Hi. destruct (Py.all_chars Py.int_char s) eqn:Hs; [reflexivity|].
  apply (all_chars_strip_by Py.int_char Py.is_c_space s int_char_c_space) in Hs.
  unfold Py.int in Hi. cbv zeta in Hi.
  destruct (_ <? _)%nat; [discriminate Hi|].
  destruct (Py.strip_by Py.is_c_space s) as [|c rest] eqn:Ht; [discriminate Hi|].
  rewrite <- Hs.
  destruct (Ascii.eqb c "+") eqn:Hp.
  { apply Ascii.eqb_eq in Hp. subst c. rewrite all_chars_cons.
    rewrite (unsigned_digits_int_char rest n Hi). reflexivity. }
  destruct (Ascii.eqb c "-") eqn:Hm.
  { apply Ascii.eqb_eq in Hm. subst c. rewrite all_chars_cons.
    destruct (Py.unsigned_digits rest) as [v|] eqn:Hu; [|discriminate Hi].
    rewrite (unsigned_digits_int_char rest v Hu). reflexivity. }
  apply (unsigned_digits_int_char _ n Hi).
Qed.

(** [int] on a string without white space around it and within the
    limit on its digits. *)
Lemma int_stripped t :
  Py.all_chars Py.not_white t = true ->
  (Py.count_digits t <=? Py.int_max_str_digits)%nat = true ->
  Py.int t =
    match t with
    | EmptyString => None
    | String c rest =>
        if Ascii.eqb c "+"%char then Py.unsigned_digits rest
        else if Ascii.eqb c "-"%char then Z.opp <$> Py.unsigned_digits rest
        else Py.unsigned_digits t
    end.
Proof.
  intros Hw Hn. unfold Py.int. cbv zeta. rewrite (strip_not_white t Hw).
  apply Nat.leb_le, Nat.ltb_ge in Hn. rewrite Hn. reflexivity.
Qed.

(** A string that starts with a digit starts with no sign. *)
Lemma unsigned_first_digit c rest v :
  Py.unsigned_digits (String c rest) = Some v ->
  Ascii.eqb c "+" = false /\ Ascii.eqb c "-" = false.
Proof.
  rewrite unsigned_digits_cons. intros Hu.
  split; (destruct (Ascii.eqb c _) eqn:He; [|reflexivity]);
    apply Ascii.eqb_eq in He; subst c; discriminate Hu.
Qed.

(** [int] reads back what [str] writes, within the limit on the digits. *)
Lemma int_str_of_int z :
  (Py.count_digits (Py.str_of_int z) <=? Py.int_max_str_digits)%nat = true ->
  Py.int (Py.str_of_int z) = Some z.
Proof.
  intros Hn. rewrite (int_stripped _ (str_of_int_not_white z) Hn). clear Hn.
  unfold Py.str_of_int, pretty, pretty_Z. destruct z as [|x|x].
  - reflexivity.
  - unfold pretty, pretty_positive, pretty, pretty_N.
    destruct (decide (N.pos x = 0%N)); [discriminate|].
    pose proof (unsigned_digits_pretty_go (N.pos x) eq_refl "") as Hu.
    change (Py.more_digits "" (Z.of_N (N.pos x))) with (Some (Z.pos x)) in Hu.
    destruct (pretty_N_go (N.pos x) "") as [|c rest]; [discriminate Hu|].
    destruct (unsigned_first_digit c rest _ Hu) as [Hp Hm]. rewrite Hp, Hm. exact Hu.
  - unfold pretty, pretty_positive, pretty, pretty_N.
    destruct (decide (N.pos x = 0%N)); [discriminate|].
    change ("-" +:+ pretty_N_go (N.pos x) "") with (String "-" (pretty_N_go (N.pos x) "")).
    change (Ascii.eqb "-" "+") with false. change (Ascii.eqb "-" "-") with true.
    cbv beta iota.
    rewrite unsigned_digits_pretty_go by reflexivity. reflexivity.
Qed.

End PyFacts.

(** ** How the wrappers run *)

Lemma alter_last {A} (f : A -> A) (l : list A) (x : A) :
  alter f (length l) (l ++ [x])%list = (l ++ [f x])%list.
Proof.
  replace (length l) with (length l + 0)%nat by lia.
  rewrite alter_app_r. reflexivity.
Qed.

Lemma distinct5 {A} (a b c d e : A) :
  NoDup [a; b; c; d; e] ->
  a <> b /\ a <> c /\ a <> d /\ a <> e /\ b <> c /\ b <> d /\ b <> e /\ c <> d /\ c <> e.
Proof.
  intros Hd.
  apply NoDup_cons in Hd as [Ha Hd]. apply NoDup_cons in Hd as [Hb Hd].
  apply NoDup_cons in Hd as [Hc Hd].
  repeat split; intros ->; (apply Ha || apply Hb || apply Hc); set_solver.
Qed.

(** Updates of a span that is given field by field. *)
Lemma with_tag_span k v n sv r ty p tg hm e f :
  with_tag k v (Build_Span n sv r ty p tg hm e f) = Build_Span n sv r ty p (<[k:=v]> tg) hm e f.
Proof. reflexivity. Qed.

Lemma with_http_meta_span m n sv r ty p tg hm e f :
  with_http_meta m (Build_Span n sv r ty p tg hm e f) =
    Build_Span n sv r ty p tg (hm ++ [m]) e f.
Proof. reflexivity. Qed.

(** The updates of a span that the two files make keep its parent. *)
Lemma lookup_alter_parent (f : Span -> Span) i (l : list Span) :
  (forall s, parent (f s) = parent s) ->
  parent <$> alter f i l !! i = parent <$> l !! i.
Proof.
  intros Hf. rewrite list_lookup_alter_eq. destruct (l !! i); [cbn; f_equal; apply Hf|reflexivity].
Qed.

(** Tag maps are read through the lemmas on [insert], not by unfolding. *)
#[local] Arguments insert : simpl never.

Ltac run_monad :=
  unfold with_span, try_finally, start_span, finish_span, set_tag_str, set_tag,
    set_resource, set_http_meta, get_tag, update_span, activate_distributed_headers,
    get_framework, set_framework, on_tracer, mbind, M_bind, mret, M_ret;
  cbn.

Section PyramidRun.
Context `{Imports}.
Import Pyramid.

(** The tween prepares the world, calls the handler once, and closes. *)
Lemma trace_tween_run handler settings service tracer dt w :
  trace_tween handler settings service tracer dt w =
    let '(o, w2) := handler (handler_world settings service tracer dt w) in
    (o, closing_world (length (spans (tracer_state w))) o w2).
Proof.
  unfold trace_tween, handler_world, closing_world, close_span, tween_tags,
    trace_tween_finally, setattr_DD_TRACER.
  destruct w as [[sp ac lg] rq].
  destruct (_ || _); run_monad;
    rewrite ?length_alter, ?alter_last, ?with_tag_span;
    rewrite <- !app_assoc; cbn;
    (destruct (handler _) as [o [t2 r2]]; cbn;
     destruct (Request.matched_route r2); cbn;
     rewrite ?list_alter_alter_eq, <- ?app_assoc;
     rewrite ?lookup_alter_parent by reflexivity; reflexivity).
Qed.

End PyramidRun.

Section MoltenRun.
Context `{Imports}.
Import MoltenHttp Molten.

Lemma _w_start_response_off span request wrapped status hs exc_info kwargs w :
  pin_off (_datadog_pin (molten (framework w))) = true ->
  _w_start_response span request wrapped status hs exc_info kwargs w =
    wrapped status hs exc_info kwargs w.
Proof.
  intros Hoff. unfold _w_start_response, get_pin. run_monad. rewrite Hoff. reflexivity.
Qed.

Lemma _w_start_response_run span request wrapped status hs exc_info kwargs w :
  pin_off (_datadog_pin (molten (framework w))) = false ->
  _w_start_response span request wrapped status hs exc_info kwargs w =
    wrapped status hs exc_info kwargs (emit_world span request status w).
Proof.
  intros Hon. unfold _w_start_response, get_pin, emit_world, status_code_of.
  run_monad. rewrite Hon.
  destruct (Py.partition_space status) as [[code sep] rest].
  destruct w as [[sp ac lg] fr]. cbn.
  destruct (sp !! span) as [s|] eqn:Hs; cbn.
  - destruct (Py.truthy_opt (tags s !! MOLTEN_ROUTE)) eqn:Hr; cbn.
    + do 3 f_equal. apply list_alter_ext; [|reflexivity].
      intros x Hx. rewrite Hs in Hx. injection Hx as <-.
      unfold emit_on_span, has_route. rewrite Hr. reflexivity.
    + do 3 f_equal. rewrite list_alter_alter_eq. apply list_alter_ext; [|reflexivity].
      intros x Hx. rewrite Hs in Hx. injection Hx as <-.
      unfold emit_on_span, has_route. rewrite Hr. reflexivity.
  - do 3 f_equal. rewrite list_alter_alter_eq. apply list_alter_ext; [|reflexivity].
    intros x Hx. rewrite Hs in Hx. discriminate.
Qed.

(** With the pin enabled, [patch_app_call] prepares the world, calls the
    application once with the wrapped [start_response], and leaves the
    scope of the span. *)
Lemma patch_app_call_run wrapped environ start_response kwargs w pin :
  _datadog_pin (molten (framework w)) = Some pin ->
  pin_enabled pin = true ->
  patch_app_call wrapped (environ, start_response) kwargs w =
    let span := length (spans (tracer_state w)) in
    let '(o, w2) :=
      call wrapped
        (environ, _w_start_response span (from_environ environ) start_response)
        kwargs (app_world wrapped pin environ w) in
    (o, finished_world span o w2).
Proof.
  intros Hpin Hon. unfold patch_app_call, get_pin, app_world, finished_world, request_tags.
  destruct w as [[sp ac lg] fr]. cbn in Hpin. run_monad. rewrite Hpin, Hon. cbn.
  rewrite ?length_alter, ?alter_last, ?with_tag_span, ?with_http_meta_span, ?with_tag_span.
  rewrite <- !app_assoc. cbn.
  destruct (call wrapped _ _ _) as [o w2]. reflexivity.
Qed.

Lemma patch_app_call_off wrapped args kwargs w :
  pin_off (_datadog_pin (molten (framework w))) = true ->
  patch_app_call wrapped args kwargs w = call wrapped args kwargs w.
Proof.
  intros Hoff. unfold patch_app_call, get_pin. run_monad.
  destruct (_datadog_pin (molten (framework w))) as [pin|]; [|reflexivity].
  cbn in Hoff. rewrite Hoff. reflexivity.
Qed.

End MoltenRun.

(** ** Installing the instrumentation *)

Section Install.
Context `{Imports}.
Import MoltenHttp Molten Wrapt.

Lemma patch_patched w :
  _datadog_patch (molten (framework w)) = true -> patch w = (Return tt, w).
Proof. intros Hp. unfold patch. run_monad. rewrite Hp. reflexivity. Qed.

Lemma patch_sets_flag w : _datadog_patch (molten (framework (snd (patch w)))) = true.
Proof.
  unfold patch, set_molten. run_monad.
  destruct (_datadog_patch (molten (framework w))) eqn:Hp; cbn; [exact Hp | reflexivity].
Qed.

Lemma includeme_proxy w :
  is_proxy (Pyramid.RendererHelper_render (framework (snd (Pyramid.includeme w)))) = true.
Proof.
  unfold Pyramid.includeme. run_monad.
  destruct (is_proxy (Pyramid.RendererHelper_render (framework w))) eqn:Hp; cbn;
    [exact Hp | reflexivity].
Qed.

Lemma includeme_on_proxy w :
  is_proxy (Pyramid.RendererHelper_render (framework w)) = true ->
  Pyramid.RendererHelper_render (framework (snd (Pyramid.includeme w))) =
    Pyramid.RendererHelper_render (framework w).
Proof. intros Hp. unfold Pyramid.includeme. run_monad. rewrite Hp. reflexivity. Qed.

(** One run of [patch_app_init] puts exactly one proxy on every router,
    middleware, component and renderer reference. *)
Lemma patch_app_init_wraps wrapped w w1 :
  wrapped w = (Return tt, w1) ->
  pin_off (_datadog_pin (molten (framework w1))) = false ->
  let app := instance (framework w1) in
  let app' := instance (framework (snd (patch_app_init wrapped w))) in
  router app' = WrapperRouter (router app)
  /\ middleware app' = WrapperMiddleware <$> middleware app
  /\ injector_components app' = WrapperComponent <$> injector_components app
  /\ renderers app' = WrapperRenderer <$> renderers app.
Proof.
  intros Hw Hon. unfold patch_app_init, get_pin. run_monad. rewrite Hw. cbn.
  rewrite Hon. cbn. repeat split.
Qed.

(** C8: installing is idempotent.  A second [patch()] changes nothing; on
    a module that was not patched, two calls of [patch()] leave exactly
    one wrapper more on [BaseApp.__init__] and on [App.__call__], so that
    calling a plain [BaseApp.__init__] runs [patch_app_init] once, which
    wraps each router, middleware, component and renderer reference
    exactly once; [includeme] leaves a [RendererHelper.render] that is
    already a proxy as it is, so including twice wraps it once. *)
Theorem C8_install_idempotent :
  (forall w : World State, patch (snd (patch w)) = (Return tt, snd (patch w)))
  /\ (forall w : World State,
        _datadog_patch (molten (framework w)) = false ->
        let m := molten (framework w) in
        let m2 := molten (framework (snd (patch (snd (patch w))))) in
        wrappers (BaseApp__init__ m2) = S (wrappers (BaseApp__init__ m))
        /\ wrappers (App__call__ m2) = S (wrappers (App__call__ m))
        /\ (is_proxy (BaseApp__init__ m) = false ->
            forall original, call_init (BaseApp__init__ m2) original = patch_app_init original))
  /\ (forall (wrapped : M State unit) w w1,
        wrapped w = (Return tt, w1) ->
        pin_off (_datadog_pin (molten (framework w1))) = false ->
        let app := instance (framework w1) in
        let app' := instance (framework (snd (patch_app_init wrapped w))) in
        router app' = WrapperRouter (router app)
        /\ middleware app' = WrapperMiddleware <$> middleware app
        /\ injector_components app' = WrapperComponent <$> injector_components app
        /\ renderers app' = WrapperRenderer <$> renderers app)
  /\ (forall w : World Pyramid.Install,
        let render1 := Pyramid.RendererHelper_render (framework (snd (Pyramid.includeme w))) in
        let render2 := Pyramid.RendererHelper_render
                         (framework (snd (Pyramid.includeme (snd (Pyramid.includeme w))))) in
        render2 = render1
        /\ (is_proxy (Pyramid.RendererHelper_render (framework w)) = true ->
            render1 = Pyramid.RendererHelper_render (framework w))
        /\ (is_proxy (Pyramid.RendererHelper_render (framework w)) = false ->
            wrappers render2 = 1%nat)).
Proof.
  split; [|split; [|split]].
  - intros w. apply patch_patched, patch_sets_flag.
  - intros w Hp m m2. subst m m2.
    rewrite (patch_patched (snd (patch w))) by apply patch_sets_flag. cbn [snd].
    unfold patch, set_molten. run_monad. rewrite Hp. cbn.
    repeat split.
    destruct (BaseApp__init__ (molten (framework w))); [reflexivity | discriminate].
  - apply patch_app_init_wraps.
  - intros w render1 render2. subst render1 render2. repeat split.
    + apply includeme_on_proxy, includeme_proxy.
    + apply includeme_on_proxy.
    + intros Hp. rewrite includeme_on_proxy by apply includeme_proxy.
      unfold Pyramid.includeme. run_monad. rewrite Hp. cbn.
      destruct (Pyramid.RendererHelper_render (framework w)); [reflexivity | discriminate].
Qed.

End Install.

(** ** When tracing is off *)

Section Passthrough.
Context `{Imports}.
Import Pyramid.

Lemma trace_render_off (func : RenderFn) args kwargs (w : World Request.t) :
  request_tracer kwargs w = None ->
  trace_render func args kwargs w = func args kwargs w.
Proof.
  intros Hno. unfold trace_render, request_tracer in *.
  destruct (kwargs !! "request") as [[v| |id]|] eqn:Hk; try reflexivity.
  run_monad. rewrite Hno. reflexivity.
Qed.

Lemma request_tracer_no_kwarg kwargs (w : World Request.t) :
  kwargs !! "request" = None -> request_tracer kwargs w = None.
Proof. intros Hk. unfold request_tracer. rewrite Hk. reflexivity. Qed.

(** C7, as the code has it: the wrapped WSGI call is the call of the
    application when the pin is absent or its tracer disabled; the tween
    factory hands back the handler itself when tracing is not enabled,
    where the setting [SETTINGS_TRACE_ENABLED] decides if it is set and
    [tracer.enabled] only otherwise; the render wrapper is the call of
    the original [render] when it finds no tracer on the request. *)
Theorem C7_passthrough_when_off :
  (forall wrapped args kwargs (w : World Molten.State),
      Molten.pin_off (Molten._datadog_pin (Molten.molten (framework w))) = true ->
      Molten.patch_app_call wrapped args kwargs w = Molten.call wrapped args kwargs w)
  /\ (forall handler registry,
        let tracer := default ddtrace_tracer (SETTINGS_TRACER (settings registry)) in
        asbool (default (Py.PBool (enabled tracer))
                  (SETTINGS_TRACE_ENABLED (settings registry))) = false ->
        trace_tween_factory handler registry = handler)
  /\ (forall (func : RenderFn) args kwargs (w : World Request.t),
        request_tracer kwargs w = None ->
        trace_render func args kwargs w = func args kwargs w).
Proof.
  split; [|split].
  - apply @patch_app_call_off.
  - intros handler registry tracer Hoff. subst tracer.
    unfold trace_tween_factory. rewrite Hoff. reflexivity.
  - apply trace_render_off.
Qed.

(** C10: a call of the wrapped [render] without a [request] keyword
    argument, or with a request that does not carry the tracer, is the
    call of the original [render] with the same arguments: same result,
    same world, hence no span of the wrapper's. *)
Theorem C10_render_without_tracer_passes_through
    (func : RenderFn) args kwargs (w : World Request.t) :
  kwargs !! "request" = None \/ request_tracer kwargs w = None ->
  trace_render func args kwargs w = func args kwargs w.
Proof.
  intros [Hno|Hno]; apply trace_render_off; [apply request_tracer_no_kwarg|]; exact Hno.
Qed.

End Passthrough.

(** ** The request span *)

Section RequestSpan.
Context `{Imports}.
Import Pyramid.

Lemma closing_world_span i o (w2 : World Request.t) :
  span_of i (closing_world i o w2) = close_span (framework w2) o <$> span_of i w2.
Proof. unfold span_of, closing_world. cbn. apply list_lookup_alter_eq. Qed.

Lemma handler_world_span settings service tracer dt (w : World Request.t) :
  span_of (length (spans (tracer_state w))) (handler_world settings service tracer dt w) =
    Some {| name := schematize_url_operation "pyramid.request" "http" INBOUND;
            service := Some service; resource := Some "404";
            span_type := SpanTypes_WEB;
            parent := if dt then extract (Request.headers (framework w)) else empty_context;
            tags := tween_tags settings;
            http_meta := []; error := false; finished := false |}.
Proof. unfold span_of, handler_world. cbn. apply list_lookup_middle. reflexivity. Qed.

Lemma app_world_span wrapped pin environ (w : World Molten.State) :
  span_of (length (spans (tracer_state w))) (Molten.app_world wrapped pin environ w) =
    Some {| name := schematize_url_operation "molten.request" "http" INBOUND;
            service := Some (int_service pin config_molten);
            resource := Some (Molten.func_name wrapped);
            span_type := SpanTypes_WEB;
            parent := if distributed_tracing config_molten
                      then extract (Py.dict (MoltenHttp.headers (from_environ environ)))
                      else empty_context;
            tags := Molten.request_tags
                      (Molten.__version__ (Molten.molten (framework w)));
            http_meta := [Molten.request_meta (from_environ environ)];
            error := false; finished := false |}.
Proof. unfold span_of, Molten.app_world. cbn. apply list_lookup_middle. reflexivity. Qed.

Lemma emit_world_span span request status (w : World Molten.State) :
  span_of span (Molten.emit_world span request status w) =
    Molten.emit_on_span request (Molten.status_code_of status) <$> span_of span w.
Proof. unfold span_of, Molten.emit_world. cbn. apply list_lookup_alter_eq. Qed.




Lemma tween_tags_fixed settings :
  NoDup [COMPONENT; SPAN_KIND; SPAN_MEASURED_KEY; ANALYTICS_SAMPLE_RATE_KEY; "molten.version"] ->
  tween_tags settings !! COMPONENT = Some (Py.PStr (integration_name config_pyramid))
  /\ tween_tags settings !! SPAN_KIND = Some (Py.PStr SpanKind_SERVER)
  /\ tween_tags settings !! SPAN_MEASURED_KEY = Some Py.PNone.
Proof.
  intros Hd. apply distinct5 in Hd.
  destruct Hd as (Hab & Hac & Had & _ & Hbc & Hbd & _ & Hcd & _).
  unfold tween_tags.
  destruct (_ || _); repeat split;
    rewrite ?(lookup_insert_ne _ ANALYTICS_SAMPLE_RATE_KEY) by congruence;
    rewrite ?(lookup_insert_ne _ SPAN_MEASURED_KEY) by congruence;
    rewrite ?(lookup_insert_ne _ SPAN_KIND) by congruence;
    apply lookup_insert_eq.
Qed.

Lemma request_tags_fixed version :
  NoDup [COMPONENT; SPAN_KIND; SPAN_MEASURED_KEY; ANALYTICS_SAMPLE_RATE_KEY; "molten.version"] ->
  Molten.request_tags version !! COMPONENT = Some (Py.PStr (integration_name config_molten))
  /\ Molten.request_tags version !! SPAN_KIND = Some (Py.PStr SpanKind_SERVER)
  /\ Molten.request_tags version !! SPAN_MEASURED_KEY = Some Py.PNone.
Proof.
  intros Hd. apply distinct5 in Hd.
  destruct Hd as (Hab & Hac & Had & Hae & Hbc & Hbd & Hbe & Hcd & Hce).
  unfold Molten.request_tags.
  repeat split;
    rewrite (lookup_insert_ne _ "molten.version") by congruence;
    rewrite (lookup_insert_ne _ ANALYTICS_SAMPLE_RATE_KEY) by congruence;
    rewrite ?(lookup_insert_ne _ SPAN_MEASURED_KEY) by congruence;
    rewrite ?(lookup_insert_ne _ SPAN_KIND) by congruence;
    apply lookup_insert_eq.
Qed.

(** C3, as the code has it: the request span is opened at request entry,
    before the wrapped application or handler runs, with the resource
    [func_name(wrapped)] in molten and the literal ["404"] in pyramid,
    and it carries the component id, span kind server and the measured
    flag when the application or handler is called.  The tag keys are
    taken to be distinct. *)
Theorem C3_span_at_request_entry :
  NoDup [COMPONENT; SPAN_KIND; SPAN_MEASURED_KEY; ANALYTICS_SAMPLE_RATE_KEY; "molten.version"] ->
  (forall wrapped environ start_response kwargs (w : World Molten.State) pin,
      Molten._datadog_pin (Molten.molten (framework w)) = Some pin ->
      pin_enabled pin = true ->
      let i := length (spans (tracer_state w)) in
      let w1 := Molten.app_world wrapped pin environ w in
      Molten.patch_app_call wrapped (environ, start_response) kwargs w =
        (let '(o, w2) :=
           Molten.call wrapped
             (environ, Molten._w_start_response i (from_environ environ) start_response)
             kwargs w1 in
         (o, Molten.finished_world i o w2))
      /\ exists s,
          span_of i w1 = Some s
          /\ resource s = Some (Molten.func_name wrapped)
          /\ tags s !! COMPONENT = Some (Py.PStr (integration_name config_molten))
          /\ tags s !! SPAN_KIND = Some (Py.PStr SpanKind_SERVER)
          /\ tags s !! SPAN_MEASURED_KEY = Some Py.PNone
          /\ finished s = false)
  /\ (forall handler settings service tracer dt (w : World Request.t),
        let i := length (spans (tracer_state w)) in
        let w1 := handler_world settings service tracer dt w in
        trace_tween handler settings service tracer dt w =
          (let '(o, w2) := handler w1 in (o, closing_world i o w2))
        /\ exists s,
            span_of i w1 = Some s
            /\ resource s = Some "404"
            /\ tags s !! COMPONENT = Some (Py.PStr (integration_name config_pyramid))
            /\ tags s !! SPAN_KIND = Some (Py.PStr SpanKind_SERVER)
            /\ tags s !! SPAN_MEASURED_KEY = Some Py.PNone
            /\ finished s = false).
Proof.
  intros Hd. split.
  - intros wrapped environ start_response kwargs w pin Hpin Hon i w1. subst i w1.
    split; [apply @patch_app_call_run; assumption|].
    eexists. split; [apply app_world_span|]. cbn.
    destruct (request_tags_fixed (Molten.__version__ (Molten.molten (framework w))) Hd)
      as (? & ? & ?).
    repeat split; assumption.
  - intros handler settings service tracer dt w i w1. subst i w1.
    split; [apply trace_tween_run|].
    eexists. split; [apply handler_world_span|]. cbn.
    destruct (tween_tags_fixed settings Hd) as (? & ? & ?).
    repeat split; assumption.
Qed.

Lemma closing_world_log i o (w2 : World Request.t) :
  log (tracer_state (closing_world i o w2)) =
    (log (tracer_state w2)
     ++ [EvHttpMeta i (final_http_meta (framework w2) o); EvSpanFinish i])%list.
Proof. reflexivity. Qed.

(** What the tween has done to the request span when it is left: the
    metadata is recorded and the span is finished; it is marked as
    errored when the handler raised. *)
Lemma closing_world_records i o (w2 : World Request.t) s2 :
  span_of i w2 = Some s2 ->
  exists s',
    span_of i (closing_world i o w2) = Some s'
    /\ http_meta s' = (http_meta s2 ++ [final_http_meta (framework w2) o])%list
    /\ (raised o = true -> error s' = true)
    /\ finished s' = true.
Proof.
  intros Hs. rewrite closing_world_span, Hs. cbn. eexists. split; [reflexivity|].
  unfold close_span, exit_scope.
  destruct (Request.matched_route (framework w2)), (raised o); repeat split;
    intros Hx; discriminate Hx.
Qed.


(** C5: when the handler raises any other exception, the tween raises
    that same exception, and before the span is finished it records the
    status code 500 together with the method, URL, query string and
    request headers of the request. *)
Theorem C5_unhandled_exception_recorded_as_500
    handler settings service tracer dt (w : World Request.t) kind message w2 :
  handler (handler_world settings service tracer dt w) =
    (Raise (OtherException kind message), w2) ->
  let i := length (spans (tracer_state w)) in
  let request := framework w2 in
  let m := final_http_meta request (Raise (OtherException kind message)) in
  exists w',
    trace_tween handler settings service tracer dt w =
      (Raise (OtherException kind message), w')
    /\ hm_status_code m = Some (CodeInt 500)
    /\ hm_method m = Some (Request.method request)
    /\ hm_url m = Some (Request.path_url request)
    /\ hm_query m = Some (Request.query_string request)
    /\ hm_request_headers m = Some (Request.headers request)
    /\ hm_response_headers m = None
    /\ log (tracer_state w') = (log (tracer_state w2) ++ [EvHttpMeta i m; EvSpanFinish i])%list
    /\ forall s2, span_of i w2 = Some s2 ->
         exists s', span_of i w' = Some s'
                    /\ http_meta s' = (http_meta s2 ++ [m])%list
                    /\ finished s' = true.
Proof.
  intros Hh i request m. subst i request m. rewrite trace_tween_run, Hh.
  eexists. split; [reflexivity|].
  repeat split. intros s2 Hs.
  destruct (closing_world_records (length (spans (tracer_state w)))
              (Raise (OtherException kind message)) w2 s2 Hs) as (s' & ? & ? & _ & ?).
  exists s'. repeat split; assumption.
Qed.

(** C6: the wrapped [start_response] takes the text before the first
    space of the status line; with tracing on it records as status code
    the integer that text parses to, or the text itself when it does not
    parse, and then calls the original callback with the arguments it
    was given; with tracing off it only calls the original callback.
    It raises nothing of its own: how the call ends is how the original
    callback ends.  A token that is the decimal form of an integer [n]
    (of no more digits than the interpreter converts) is recorded as
    [n]; an ASCII token with a character that is no digit, sign,
    underscore or white space is recorded as it stands. *)
Theorem C6_status_line_parse_is_tolerant
    span request wrapped status hs exc_info kwargs (w : World Molten.State) :
  let token := (Py.partition_space status).1.1 in
  let code := match Py.int token with
              | Some n => CodeInt n
              | None => CodeStr token
              end in
  (forall n,
      token = Py.str_of_int n ->
      (Py.count_digits token <=? Py.int_max_str_digits)%nat = true ->
      code = CodeInt n)
  /\ (Py.all_chars Py.is_ascii token = true ->
      Py.all_chars Py.int_char token = false ->
      code = CodeStr token)
  /\ (Molten.pin_off (Molten._datadog_pin (Molten.molten (framework w))) = true ->
      Molten._w_start_response span request wrapped status hs exc_info kwargs w =
        wrapped status hs exc_info kwargs w)
  /\ (Molten.pin_off (Molten._datadog_pin (Molten.molten (framework w))) = false ->
      let w1 := Molten.emit_world span request status w in
      Molten._w_start_response span request wrapped status hs exc_info kwargs w =
        wrapped status hs exc_info kwargs w1
      /\ log (tracer_state w1) =
           (log (tracer_state w) ++ [EvHttpMeta span (Molten.status_meta code)])%list
      /\ hm_status_code (Molten.status_meta code) = Some code
      /\ forall s, span_of span w = Some s ->
           exists s', span_of span w1 = Some s'
                      /\ http_meta s' = (http_meta s ++ [Molten.status_meta code])%list).
Proof.
  intros token code. split; [|split; [|split]].
  - intros n Htok Hn. subst code. rewrite Htok in *. rewrite (int_str_of_int n Hn). reflexivity.
  - intros _ Hbad. subst code. destruct (Py.int token) as [n|] eqn:Hi; [|reflexivity].
    apply int_int_char in Hi. rewrite Hi in Hbad. discriminate Hbad.
  - apply @_w_start_response_off.
  - intros Hon w1. subst w1.
    assert (Hcode : Molten.status_code_of status = code).
    { subst code token. unfold Molten.status_code_of, Molten.parse_code.
      destruct (Py.partition_space status) as [[c sep] rest]. reflexivity. }
    split; [apply @_w_start_response_run; exact Hon|].
    split; [unfold Molten.emit_world; cbn; rewrite Hcode; reflexivity|].
    split; [reflexivity|].
    intros s Hs. rewrite emit_world_span, Hs, Hcode. cbn. eexists. split; [reflexivity|].
    unfold Molten.emit_on_span. destruct (negb _); reflexivity.
Qed.

(** C9: the context taken from the request headers is activated before
    the request span is opened, the two being the last things the tracer
    is asked before the application or handler is called; the span is
    opened under the activated context, which is the extracted one when
    distributed tracing is on. *)
Theorem C9_context_activated_before_span_opens :
  (forall wrapped environ start_response kwargs (w : World Molten.State) pin,
      Molten._datadog_pin (Molten.molten (framework w)) = Some pin ->
      pin_enabled pin = true ->
      let i := length (spans (tracer_state w)) in
      let w1 := Molten.app_world wrapped pin environ w in
      Molten.patch_app_call wrapped (environ, start_response) kwargs w =
        (let '(o, w2) :=
           Molten.call wrapped
             (environ, Molten._w_start_response i (from_environ environ) start_response)
             kwargs w1 in
         (o, Molten.finished_world i o w2))
      /\ exists ctx nm svc res ty,
          log (tracer_state w1) =
            (log (tracer_state w)
             ++ [EvActivate ctx; EvSpanStart i nm svc res ty;
                 EvHttpMeta i (Molten.request_meta (from_environ environ))])%list
          /\ parent <$> span_of i w1 = Some ctx
          /\ (distributed_tracing config_molten = true ->
              ctx = extract (Py.dict (MoltenHttp.headers (from_environ environ)))))
  /\ (forall handler settings service tracer dt (w : World Request.t),
        let i := length (spans (tracer_state w)) in
        let w1 := handler_world settings service tracer dt w in
        trace_tween handler settings service tracer dt w =
          (let '(o, w2) := handler w1 in (o, closing_world i o w2))
        /\ exists ctx nm svc res ty,
            log (tracer_state w1) =
              (log (tracer_state w) ++ [EvActivate ctx; EvSpanStart i nm svc res ty])%list
            /\ parent <$> span_of i w1 = Some ctx
            /\ (dt = true -> ctx = extract (Request.headers (framework w)))).
Proof.
  split.
  - intros wrapped environ start_response kwargs w pin Hpin Hon i w1. subst i w1.
    split; [apply @patch_app_call_run; assumption|].
    do 5 eexists. split; [reflexivity|].
    rewrite app_world_span. cbn. split; [reflexivity|].
    intros ->. reflexivity.
  - intros handler settings service tracer dt w i w1. subst i w1.
    split; [apply trace_tween_run|].
    do 5 eexists. split; [reflexivity|].
    rewrite handler_world_span. cbn. split; [reflexivity|].
    intros ->. reflexivity.
Qed.

End RequestSpan.

(** ** Further properties of [patch.py] *)

Section MoltenInstall.
Context `{Imports}.
Import MoltenHttp Molten Wrapt.

Lemma unpatch_unpatched w :
  _datadog_patch (molten (framework w)) = false -> unpatch w = (Return tt, w).
Proof. intros Hp. unfold unpatch. run_monad. rewrite Hp. reflexivity. Qed.

(** The flag is cleared before anything is unwrapped, so it is cleared
    also when unwrapping raises. *)
Lemma unpatch_clears_flag w : _datadog_patch (molten (framework (snd (unpatch w)))) = false.
Proof.
  unfold unpatch, unwrapped, set_molten, raise. run_monad.
  destruct (_datadog_patch (molten (framework w))) eqn:Hp; cbn; [|exact Hp].
  destruct (BaseApp__init__ (molten (framework w))); cbn; [reflexivity|].
  destruct (App__call__ (molten (framework w))); reflexivity.
Qed.

(** X1: [unpatch()] undoes [patch()]: on a module that is not patched and
    carries no pin, patching and then unpatching gives back the module,
    the application and the tracer as they were. *)
Theorem X1_unpatch_undoes_patch (w : World State) :
  _datadog_patch (molten (framework w)) = false ->
  _datadog_pin (molten (framework w)) = None ->
  unpatch (snd (patch w)) = (Return tt, w).
Proof.
  intros Hp Hpin. destruct w as [t [[flag pin init call_ ver] app]]. cbn in Hp, Hpin. subst.
  reflexivity.
Qed.

(** X2: [unpatch()] is idempotent: a second call changes nothing, so it
    takes at most one wrapper off [BaseApp.__init__] and [App.__call__]
    however often it is called. *)
Theorem X2_unpatch_idempotent (w : World State) :
  unpatch (snd (unpatch w)) = (Return tt, snd (unpatch w))
  /\ (wrappers (BaseApp__init__ (molten (framework w)))
      <= S (wrappers (BaseApp__init__ (molten (framework (snd (unpatch (snd (unpatch w))))))))
     )%nat.
Proof.
  split; [apply unpatch_unpatched, unpatch_clears_flag|].
  rewrite (unpatch_unpatched (snd (unpatch w))) by apply unpatch_clears_flag. cbn [snd].
  unfold unpatch, unwrapped, set_molten, raise. run_monad.
  destruct (_datadog_patch (molten (framework w))); cbn; [|lia].
  destruct (BaseApp__init__ (molten (framework w))); cbn; [lia|].
  destruct (App__call__ (molten (framework w))); cbn; lia.
Qed.

(** X10: [patch_app_init] wraps nothing when the initializer it wraps
    raises (the exception goes on unchanged) or when the pin is absent or
    disabled once the initializer is done: the world is the one the
    initializer left. *)
Theorem X10_patch_app_init_wraps_nothing (wrapped : M State unit) (w : World State) :
  (forall e w1, wrapped w = (Raise e, w1) -> patch_app_init wrapped w = (Raise e, w1))
  /\ (forall w1,
        wrapped w = (Return tt, w1) ->
        pin_off (_datadog_pin (molten (framework w1))) = true ->
        patch_app_init wrapped w = (Return tt, w1)).
Proof.
  split.
  - intros e w1 Hw. unfold patch_app_init. run_monad. rewrite Hw. reflexivity.
  - intros w1 Hw Hoff. unfold patch_app_init, get_pin. run_monad. rewrite Hw. cbn.
    rewrite Hoff. reflexivity.
Qed.

Lemma patch_app_init_on (wrapped : M State unit) (w w1 : World State) :
  wrapped w = (Return tt, w1) ->
  pin_off (_datadog_pin (molten (framework w1))) = false ->
  patch_app_init wrapped w =
    (Return tt,
     MkWorld (tracer_state w1)
       {| molten := molten (framework w1);
          instance :=
            {| router := WrapperRouter (router (instance (framework w1)));
               middleware := WrapperMiddleware <$> middleware (instance (framework w1));
               injector_components :=
                 WrapperComponent <$> injector_components (instance (framework w1));
               renderers := WrapperRenderer <$> renderers (instance (framework w1)) |} |}).
Proof.
  intros Hw Hon. unfold patch_app_init, get_pin. run_monad. rewrite Hw. cbn.
  rewrite Hon. reflexivity.
Qed.

(** X11: [patch_app_init] touches only the four references of the
    instance: the tracer and the module are as the initializer left them,
    the lists keep their length, and every entity carries exactly one
    proxy more.  It does not look for a proxy that is already there: run
    around itself, it puts two proxies on every reference. *)
Theorem X11_patch_app_init_layers (wrapped : M State unit) (w w1 : World State) :
  wrapped w = (Return tt, w1) ->
  pin_off (_datadog_pin (molten (framework w1))) = false ->
  let app := instance (framework w1) in
  let w' := snd (patch_app_init wrapped w) in
  let w'' := snd (patch_app_init (patch_app_init wrapped) w) in
  (tracer_state w' = tracer_state w1
   /\ molten (framework w') = molten (framework w1)
   /\ proxies (router (instance (framework w'))) = S (proxies (router app))
   /\ Forall2 (fun e e' => proxies e' = S (proxies e))
        (middleware app ++ injector_components app ++ renderers app)
        (middleware (instance (framework w')) ++ injector_components (instance (framework w'))
         ++ renderers (instance (framework w'))))
  /\ (router (instance (framework w'')) = WrapperRouter (WrapperRouter (router app))
      /\ Forall2 (fun e e' => proxies e' = S (S (proxies e)))
           (middleware app ++ injector_components app ++ renderers app)
           (middleware (instance (framework w'')) ++ injector_components (instance (framework w''))
            ++ renderers (instance (framework w'')))).
Proof.
  intros Hw Hon app w' w''. subst app w' w''.
  pose proof (patch_app_init_on wrapped w w1 Hw Hon) as Hone.
  pose proof (patch_app_init_on (patch_app_init wrapped) w _ Hone Hon) as Htwo.
  cbn in Htwo. split.
  - rewrite Hone. cbn. repeat split.
    repeat apply Forall2_app; apply Forall2_fmap_r, Forall_Forall2_diag, Forall_forall;
      intros; reflexivity.
  - rewrite Htwo. cbn. split; [reflexivity|].
    repeat apply Forall2_app; do 2 apply Forall2_fmap_r; apply Forall_Forall2_diag, Forall_forall;
      intros; reflexivity.
Qed.

End MoltenInstall.

Section MoltenRequest.
Context `{Imports}.
Import MoltenHttp Molten Wrapt.

Lemma finished_world_span {A} i (o : Outcome A) (w : World State) :
  span_of i (finished_world i o w) = exit_scope (raised o) <$> span_of i w.
Proof. unfold span_of, finished_world. cbn. apply list_lookup_alter_eq. Qed.

Lemma finished_world_other {A} i j (o : Outcome A) (w : World State) :
  i <> j -> span_of j (finished_world i o w) = span_of j w.
Proof. intros Hne. unfold span_of, finished_world. cbn. apply list_lookup_alter_ne, Hne. Qed.

(** X3: with the pin enabled, [patch_app_call] is transparent to the
    wrapped application: it returns what the application returns and
    raises what it raises; the request span's scope is left on both ways
    out, which is the last thing the tracer is asked.  Leaving the scope
    finishes the span and keeps its resource and recorded metadata; when
    the application raised the span is marked as errored, when it
    returned the error mark and the tags stay as they are. *)
Theorem X3_patch_app_call_transparent
    wrapped environ start_response kwargs (w : World State) pin :
  _datadog_pin (molten (framework w)) = Some pin ->
  pin_enabled pin = true ->
  let i := length (spans (tracer_state w)) in
  let run := call wrapped
               (environ, _w_start_response i (from_environ environ) start_response)
               kwargs (app_world wrapped pin environ w) in
  let res := patch_app_call wrapped (environ, start_response) kwargs w in
  fst res = fst run
  /\ framework (snd res) = framework (snd run)
  /\ log (tracer_state (snd res)) = (log (tracer_state (snd run)) ++ [EvSpanFinish i])%list
  /\ (forall s, span_of i (snd run) = Some s ->
        exists s', span_of i (snd res) = Some s'
                   /\ finished s' = true
                   /\ resource s' = resource s
                   /\ http_meta s' = http_meta s
                   /\ (forall e, fst run = Raise e -> error s' = true)
                   /\ (forall body, fst run = Return body ->
                       error s' = error s /\ tags s' = tags s))
  /\ (forall j, j <> i -> span_of j (snd res) = span_of j (snd run)).
Proof.
  intros Hpin Hon i run res. subst i run res.
  rewrite (patch_app_call_run _ _ _ _ _ _ Hpin Hon). cbn zeta.
  destruct (call wrapped _ _ _) as [o w2]. cbn [fst snd].
  split; [reflexivity|]. split; [reflexivity|]. split; [reflexivity|]. split.
  - intros s Hs. rewrite finished_world_span, Hs. cbn. eexists. split; [reflexivity|].
    unfold exit_scope.
    destruct o as [body|e]; cbn; repeat split; intros; congruence.
  - intros j Hne. apply finished_world_other. congruence.
Qed.

(** X4: when the application never calls [start_response] (and leaves the
    request span alone), the span ends with the resource it was opened
    with, the name of the wrapped function, and with the request metadata
    only: no status code is recorded; the span is finished all the same. *)
Theorem X4_no_emission
    wrapped environ start_response kwargs (w : World State) pin :
  _datadog_pin (molten (framework w)) = Some pin ->
  pin_enabled pin = true ->
  let i := length (spans (tracer_state w)) in
  let w1 := app_world wrapped pin environ w in
  let run := call wrapped
               (environ, _w_start_response i (from_environ environ) start_response)
               kwargs w1 in
  span_of i (snd run) = span_of i w1 ->
  exists s,
    span_of i (snd (patch_app_call wrapped (environ, start_response) kwargs w)) = Some s
    /\ resource s = Some (func_name wrapped)
    /\ http_meta s = [request_meta (from_environ environ)]
    /\ hm_status_code (request_meta (from_environ environ)) = None
    /\ finished s = true.
Proof.
  intros Hpin Hon i w1 run Hkeep. subst i w1 run.
  rewrite (patch_app_call_run _ _ _ _ _ _ Hpin Hon). cbn zeta.
  destruct (call wrapped _ _ _) as [o w2]. cbn [snd] in *.
  rewrite finished_world_span, Hkeep, app_world_span. cbn.
  eexists. split; [reflexivity|]. unfold exit_scope. destruct (raised o); repeat split.
Qed.

Lemma emit_world_other span j request status (w : World State) :
  span <> j -> span_of j (emit_world span request status w) = span_of j w.
Proof. intros Hne. unfold span_of, emit_world. cbn. apply list_lookup_alter_ne, Hne. Qed.

(** X6: the wrapped [start_response] does not reach beyond the request
    span, and of that span it leaves the name, the service, the type,
    the parent and the [finished] mark alone: the world it hands to the
    original callback has the same framework objects, the same active
    context, the same number of spans and every other span unchanged. *)
Theorem X6_start_response_frame
    span request (wrapped : StartResponse) status hs exc_info kwargs (w : World State) :
  let w1 := if pin_off (_datadog_pin (molten (framework w)))
            then w else emit_world span request status w in
  _w_start_response span request wrapped status hs exc_info kwargs w =
    wrapped status hs exc_info kwargs w1
  /\ framework w1 = framework w
  /\ active (tracer_state w1) = active (tracer_state w)
  /\ length (spans (tracer_state w1)) = length (spans (tracer_state w))
  /\ (forall j, j <> span -> span_of j w1 = span_of j w)
  /\ (forall s, span_of span w = Some s ->
        exists s', span_of span w1 = Some s'
                   /\ name s' = name s /\ service s' = service s
                   /\ span_type s' = span_type s /\ parent s' = parent s
                   /\ finished s' = finished s).
Proof.
  intros w1. subst w1. destruct (pin_off _) eqn:Hpin.
  - split; [apply @_w_start_response_off; exact Hpin|].
    repeat split. intros s Hs. exists s. repeat split. exact Hs.
  - split; [apply @_w_start_response_run; exact Hpin|].
    split; [reflexivity|]. split; [reflexivity|].
    split; [unfold emit_world; cbn; apply length_alter|].
    split; [intros j Hne; apply emit_world_other; congruence|].
    intros s Hs. rewrite emit_world_span, Hs. cbn. eexists. split; [reflexivity|].
    unfold emit_on_span. destruct (negb _); repeat split.
Qed.

Lemma has_route_emit request code s :
  has_route (emit_on_span request code s) = has_route s.
Proof. unfold emit_on_span, has_route. destruct (negb _); reflexivity. Qed.

Lemma emit_on_span_unrouted request code s :
  has_route s = false ->
  emit_on_span request code s =
    with_http_meta (status_meta code)
      (with_resource (method request ++ " " ++ format_code code) s).
Proof. intros Hr. unfold emit_on_span. rewrite Hr. reflexivity. Qed.

(** X7: when [start_response] is called a second time, the later status
    line wins: on a span without route tag the resource is built from the
    second status code, and both status codes are recorded, in the order
    of the calls. *)
Theorem X7_second_emission_wins
    span request (wrapped : StartResponse) status1 status2 hs exc_info kwargs
    (w : World State) s v :
  pin_off (_datadog_pin (molten (framework w))) = false ->
  (forall st w0, wrapped st hs exc_info kwargs w0 = (Return v, w0)) ->
  span_of span w = Some s ->
  has_route s = false ->
  let shim := _w_start_response span request wrapped in
  exists w' s',
    (shim status1 hs exc_info kwargs ≫= fun _ => shim status2 hs exc_info kwargs) w
      = (Return v, w')
    /\ span_of span w' = Some s'
    /\ resource s' = Some (method request ++ " " ++ format_code (status_code_of status2))
    /\ http_meta s' = (http_meta s ++ [status_meta (status_code_of status1);
                                      status_meta (status_code_of status2)])%list.
Proof.
  intros Hon Hwrapped Hs Hr shim. subst shim.
  exists (emit_world span request status2 (emit_world span request status1 w)).
  exists (emit_on_span request (status_code_of status2)
            (emit_on_span request (status_code_of status1) s)).
  split.
  - unfold mbind, M_bind.
    rewrite (_w_start_response_run _ _ _ _ _ _ _ _ Hon), Hwrapped.
    rewrite _w_start_response_run by exact Hon. apply Hwrapped.
  - split; [rewrite !emit_world_span, Hs; reflexivity|].
    rewrite (emit_on_span_unrouted request (status_code_of status2))
      by (rewrite has_route_emit; exact Hr).
    rewrite (emit_on_span_unrouted request (status_code_of status1) s Hr).
    split; [reflexivity|]. cbn. rewrite <- app_assoc. reflexivity.
Qed.

Lemma request_tags_no_route version :
  MOLTEN_ROUTE ∉ [COMPONENT; SPAN_KIND; SPAN_MEASURED_KEY; ANALYTICS_SAMPLE_RATE_KEY;
                  "molten.version"] ->
  request_tags version !! MOLTEN_ROUTE = None.
Proof.
  intros Hn.
  apply not_elem_of_cons in Hn as [H1 Hn]. apply not_elem_of_cons in Hn as [H2 Hn].
  apply not_elem_of_cons in Hn as [H3 Hn]. apply not_elem_of_cons in Hn as [H4 Hn].
  apply not_elem_of_cons in Hn as [H5 _].
  unfold request_tags.
  rewrite !lookup_insert_ne by congruence. apply lookup_empty.
Qed.

(** X5: end to end, for an application that calls [start_response] once
    and returns its body, with no route recorded: [patch_app_call] returns
    the body, and the request span ends finished, with the resource made
    of the request method and the status code of the status line, and
    with the request metadata followed by the status code as recorded
    metadata.  The route tag key is taken to differ from the keys of the
    tags set at entry, and the server's callback to return. *)
Theorem X5_single_emission
    environ (start_response : StartResponse) kwargs (w : World State) pin
    nm status hs exc_info kw body v :
  _datadog_pin (molten (framework w)) = Some pin ->
  pin_enabled pin = true ->
  MOLTEN_ROUTE ∉ [COMPONENT; SPAN_KIND; SPAN_MEASURED_KEY; ANALYTICS_SAMPLE_RATE_KEY;
                  "molten.version"] ->
  (forall w0, start_response status hs exc_info kw w0 = (Return v, w0)) ->
  let app := {| func_name := nm;
                call := fun args _ => snd args status hs exc_info kw ≫= fun _ => mret body |} in
  let request := from_environ environ in
  exists w' s,
    patch_app_call app (environ, start_response) kwargs w = (Return body, w')
    /\ span_of (length (spans (tracer_state w))) w' = Some s
    /\ resource s = Some (method request ++ " " ++ format_code (status_code_of status))
    /\ http_meta s = [request_meta request; status_meta (status_code_of status)]
    /\ finished s = true.
Proof.
  intros Hpin Hon Hroute Hsr app request. subst app request.
  rewrite (patch_app_call_run _ _ _ _ _ _ Hpin Hon). cbn [call snd]. cbn zeta.
  unfold mbind, M_bind, mret, M_ret.
  rewrite _w_start_response_run
    by (cbn; rewrite Hpin; cbn; rewrite Hon; reflexivity).
  rewrite Hsr. do 2 eexists. split; [reflexivity|].
  rewrite finished_world_span, emit_world_span, app_world_span. cbn.
  split; [reflexivity|].
  rewrite emit_on_span_unrouted
    by (unfold has_route; cbn; rewrite (request_tags_no_route _ Hroute); reflexivity).
  repeat split.
Qed.

End MoltenRequest.

(** *** The status line *)

Section StatusLine.
Context `{Imports}.
Import Molten.

Lemma status_code_of_token tok rest :
  Py.all_chars Py.not_space tok = true ->
  status_code_of (tok ++ " " ++ rest) = parse_code tok.
Proof.
  intros Hc. unfold status_code_of.
  change (tok ++ " " ++ rest) with (tok ++ String " " rest).
  rewrite (partition_space_token tok rest Hc). reflexivity.
Qed.

Lemma start_response_records span request (wrapped : StartResponse) status hs exc_info kwargs
    (w : World State) :
  pin_off (_datadog_pin (molten (framework w))) = false ->
  exists w1,
    _w_start_response span request wrapped status hs exc_info kwargs w =
      wrapped status hs exc_info kwargs w1
    /\ log (tracer_state w1) =
         (log (tracer_state w) ++ [EvHttpMeta span (status_meta (status_code_of status))])%list.
Proof.
  intros Hon. exists (emit_world span request status w).
  split; [apply _w_start_response_run; exact Hon | reflexivity].
Qed.

(** X8: the status code that [_w_start_response] records depends on the
    text before the first space of the status line only: whatever follows
    the space plays no role, and a status line without a space is taken
    whole. *)
Theorem X8_status_code_from_first_token
    span request (wrapped : StartResponse) tok rest hs exc_info kwargs (w : World State) :
  Py.all_chars Py.not_space tok = true ->
  pin_off (_datadog_pin (molten (framework w))) = false ->
  let status := tok ++ " " ++ rest in
  status_code_of status = parse_code tok
  /\ status_code_of tok = parse_code tok
  /\ exists w1,
      _w_start_response span request wrapped status hs exc_info kwargs w =
        wrapped status hs exc_info kwargs w1
      /\ log (tracer_state w1) =
           (log (tracer_state w) ++ [EvHttpMeta span (status_meta (parse_code tok))])%list.
Proof.
  intros Hc Hon status. subst status.
  split; [apply status_code_of_token; exact Hc|].
  split; [unfold status_code_of; rewrite (partition_space_whole tok Hc); reflexivity|].
  rewrite <- (status_code_of_token tok rest Hc).
  apply start_response_records, Hon.
Qed.

(** X9: a status line that starts with an integer in decimal, followed by
    a space, is recorded with that integer as status code, and the
    resource built from it carries the same digits: [int] reads back what
    [str] writes, for an integer of no more digits than the interpreter
    converts. *)
Theorem X9_decimal_status_round_trip
    (z : Z) (reason : string) span request (wrapped : StartResponse) hs exc_info kwargs
    (w : World State) :
  (Py.count_digits (Py.str_of_int z) <=? Py.int_max_str_digits)%nat = true ->
  pin_off (_datadog_pin (molten (framework w))) = false ->
  let status := Py.str_of_int z ++ " " ++ reason in
  Py.int (Py.str_of_int z) = Some z
  /\ status_code_of status = CodeInt z
  /\ format_code (status_code_of status) = Py.str_of_int z
  /\ exists w1,
      _w_start_response span request wrapped status hs exc_info kwargs w =
        wrapped status hs exc_info kwargs w1
      /\ log (tracer_state w1) =
           (log (tracer_state w) ++ [EvHttpMeta span (status_meta (CodeInt z))])%list.
Proof.
  intros Hn Hon status. subst status.
  assert (Hcode : status_code_of (Py.str_of_int z ++ " " ++ reason) = CodeInt z).
  { rewrite (status_code_of_token (Py.str_of_int z) reason (str_of_int_not_space z)).
    unfold parse_code. rewrite (int_str_of_int z Hn). reflexivity. }
  split; [apply int_str_of_int, Hn|]. split; [exact Hcode|].
  split; [rewrite Hcode; reflexivity|].
  rewrite <- Hcode. apply start_response_records, Hon.
Qed.

End StatusLine.

(** ** Further properties of [trace.py] *)

Section PyramidMore.
Context `{Imports}.
Import Pyramid Wrapt.



(** X13: when the handler returns, the tween records the status code and
    the headers of the response it returned, or neither when it returned
    [None]; together with the method, URL, query string and headers of
    the request as they are then, and the pattern of the matched route,
    if any. *)
Theorem X13_tween_records_return
    handler settings service tracer dt (w : World Request.t) response w2 :
  handler (handler_world settings service tracer dt w) = (Return response, w2) ->
  let i := length (spans (tracer_state w)) in
  let request := framework w2 in
  exists w' m,
    trace_tween handler settings service tracer dt w = (Return response, w')
    /\ log (tracer_state w') = (log (tracer_state w2) ++ [EvHttpMeta i m; EvSpanFinish i])%list
    /\ hm_status_code m = (fun r => CodeInt (Response.status_code r)) <$> response
    /\ hm_response_headers m = Response.headers <$> response
    /\ hm_method m = Some (Request.method request)
    /\ hm_url m = Some (Request.path_url request)
    /\ hm_query m = Some (Request.query_string request)
    /\ hm_request_headers m = Some (Request.headers request)
    /\ hm_route m = Route.pattern <$> Request.matched_route request.
Proof.
  intros Hh i request. subst i request. rewrite trace_tween_run, Hh.
  do 2 eexists. split; [reflexivity|]. split; [reflexivity|].
  destruct response as [r|]; repeat split.
Qed.

Lemma render_done_span {A} i (o : Outcome A) (w : World Request.t) :
  span_of i (render_done i o w) = exit_scope (raised o) <$> span_of i w.
Proof. unfold span_of, render_done. cbn. apply list_lookup_alter_eq. Qed.

Lemma render_world_span (w : World Request.t) :
  span_of (length (spans (tracer_state w))) (render_world w) =
    Some {| name := "pyramid.render"; service := None; resource := None;
            span_type := SpanTypes_TEMPLATE; parent := active (tracer_state w);
            tags := <[COMPONENT := Py.PStr (integration_name config_pyramid)]> ∅;
            http_meta := []; error := false; finished := false |}.
Proof. unfold span_of, render_world. cbn. apply list_lookup_middle. reflexivity. Qed.

(** With a tracer on the request, the render wrapper opens a span, calls
    the original function once, and leaves the scope. *)
Lemma trace_render_run (func : RenderFn) args kwargs (w : World Request.t) tracer :
  request_tracer kwargs w = Some tracer ->
  trace_render func args kwargs w =
    let '(o, w2) := func args kwargs (render_world w) in
    (o, render_done (length (spans (tracer_state w))) o w2).
Proof.
  intros Ht. unfold trace_render, request_tracer in *.
  destruct (kwargs !! "request") as [[v| |id]|]; try discriminate Ht.
  run_monad. rewrite Ht. unfold render_world, render_done.
  destruct w as [[sp ac lg] rq]. cbn.
  rewrite ?length_alter, ?alter_last, ?with_tag_span.
  destruct (func _ _ _) as [o w2]. reflexivity.
Qed.

(** X14: the tween puts its tracer on the request before it calls the
    handler and changes nothing else of the request; so a [render] that
    the handler calls with that request is traced, in a span of its own
    that is opened after the request span. *)
Theorem X14_tween_hands_tracer_to_render
    settings service tracer dt (w : World Request.t) (kwargs : gmap string Arg) :
  kwargs !! "request" = Some ArgRequest ->
  let i := length (spans (tracer_state w)) in
  let w1 := handler_world settings service tracer dt w in
  let before := framework w in
  let request := framework w1 in
  (forall handler,
      trace_tween handler settings service tracer dt w =
        (let '(o, w2) := handler w1 in (o, closing_world i o w2)))
  /\ Request._datadog_tracer request = Some tracer
  /\ Request.method request = Request.method before
  /\ Request.path_url request = Request.path_url before
  /\ Request.query_string request = Request.query_string before
  /\ Request.headers request = Request.headers before
  /\ Request.matched_route request = Request.matched_route before
  /\ request_tracer kwargs w1 = Some tracer
  /\ (forall (func : RenderFn) args,
        trace_render func args kwargs w1 =
          (let '(o, w2) := func args kwargs (render_world w1) in
           (o, render_done (S i) o w2))).
Proof.
  intros Hk i w1 before request. subst i w1 before request.
  split; [intros handler; apply trace_tween_run|].
  assert (Ht : request_tracer kwargs (handler_world settings service tracer dt w)
               = Some tracer).
  { unfold request_tracer. rewrite Hk. reflexivity. }
  repeat (split; [reflexivity|]). split; [exact Ht|].
  intros func args. rewrite (trace_render_run func args kwargs _ tracer Ht).
  replace (length (spans (tracer_state (handler_world settings service tracer dt w))))
    with (S (length (spans (tracer_state w)))); [reflexivity|].
  unfold handler_world. cbn. rewrite length_app. cbn. lia.
Qed.

(** X15: a traced [render] is transparent to the original function: it
    returns what the function returns and raises what it raises; the
    function runs with a new span open, named [pyramid.render], of type
    template, tagged with the component, under the active context; the
    request is not touched, and the span is finished on both ways out:
    marked as errored when the function raised, with the tags and the
    error mark it had when the function returned. *)
Theorem X15_render_traced
    (func : RenderFn) args kwargs (w : World Request.t) tracer :
  request_tracer kwargs w = Some tracer ->
  let i := length (spans (tracer_state w)) in
  let run := func args kwargs (render_world w) in
  let res := trace_render func args kwargs w in
  fst res = fst run
  /\ framework (snd res) = framework (snd run)
  /\ framework (render_world w) = framework w
  /\ (exists s, span_of i (render_world w) = Some s
                /\ name s = "pyramid.render" /\ span_type s = SpanTypes_TEMPLATE
                /\ tags s !! COMPONENT = Some (Py.PStr (integration_name config_pyramid))
                /\ parent s = active (tracer_state w) /\ finished s = false)
  /\ log (tracer_state (render_world w)) =
       (log (tracer_state w) ++ [EvSpanStart i "pyramid.render" None None SpanTypes_TEMPLATE])%list
  /\ log (tracer_state (snd res)) = (log (tracer_state (snd run)) ++ [EvSpanFinish i])%list
  /\ (forall s, span_of i (snd run) = Some s ->
        exists s', span_of i (snd res) = Some s' /\ finished s' = true
                   /\ (forall e, fst run = Raise e -> error s' = true)
                   /\ (forall v, fst run = Return v ->
                       tags s' = tags s /\ error s' = error s)).
Proof.
  intros Ht i run res. subst i run res.
  rewrite (trace_render_run func args kwargs w tracer Ht).
  destruct (func _ _ _) as [o w2]. cbn [fst snd].
  split; [reflexivity|]. split; [reflexivity|]. split; [reflexivity|]. split.
  { eexists. split; [apply render_world_span|]. cbn.
    repeat (split; [reflexivity|]). split; [apply lookup_insert_eq|]. split; reflexivity. }
  split; [reflexivity|]. split; [reflexivity|].
  intros s Hs. rewrite render_done_span, Hs. cbn. eexists. split; [reflexivity|].
  unfold exit_scope.
  destruct o as [v|e]; cbn; repeat split; intros; congruence.
Qed.

(** X16: which request spans get the analytics sample rate, as the
    handler finds them.  The setting [SETTINGS_ANALYTICS_ENABLED] decides
    when it is [True] or [False]: [False] never tags, [True] always tags,
    whatever the global configuration; without the setting the global
    configuration decides.  The tag holds the sample-rate setting, [True]
    when that is not set.  The key is taken to differ from the keys of
    the fixed tags. *)
Theorem X16_analytics_precedence settings service tracer dt (w : World Request.t) :
  ANALYTICS_SAMPLE_RATE_KEY ∉ [COMPONENT; SPAN_KIND; SPAN_MEASURED_KEY] ->
  let i := length (spans (tracer_state w)) in
  let w1 := handler_world settings service tracer dt w in
  let tag := span_of i w1 ≫= fun s => tags s !! ANALYTICS_SAMPLE_RATE_KEY in
  let rate := default (Py.PBool true) (SETTINGS_ANALYTICS_SAMPLE_RATE settings) in
  (forall handler,
      trace_tween handler settings service tracer dt w =
        (let '(o, w2) := handler w1 in (o, closing_world i o w2)))
  /\ (SETTINGS_ANALYTICS_ENABLED settings = Some (Py.PBool false) -> tag = None)
  /\ (SETTINGS_ANALYTICS_ENABLED settings = Some (Py.PBool true) -> tag = Some rate)
  /\ (SETTINGS_ANALYTICS_ENABLED settings = None ->
      tag = if config_analytics_enabled then Some rate else None).
Proof.
  intros Hn i w1 tag rate. subst i w1 tag rate.
  split; [intros handler; apply trace_tween_run|].
  rewrite handler_world_span. cbn [mbind option_bind tags].
  apply not_elem_of_cons in Hn as [H1 Hn]. apply not_elem_of_cons in Hn as [H2 Hn].
  apply not_elem_of_cons in Hn as [H3 _].
  assert (Hfixed : (<[SPAN_MEASURED_KEY := Py.PNone]>
                      (<[SPAN_KIND := Py.PStr SpanKind_SERVER]>
                         (<[COMPONENT := Py.PStr (integration_name config_pyramid)]> ∅))
                    : gmap string Py.PyVal) !! ANALYTICS_SAMPLE_RATE_KEY = None).
  { rewrite !lookup_insert_ne by congruence. apply lookup_empty. }
  unfold tween_tags. split; [|split]; intros Hs; rewrite Hs; cbn.
  - rewrite andb_false_r. cbn. exact Hfixed.
  - rewrite orb_true_r. apply lookup_insert_eq.
  - rewrite orb_false_r, andb_true_r.
    destruct config_analytics_enabled; [apply lookup_insert_eq | exact Hfixed].
Qed.

(** X17: [includeme] adds the tween at every call, over [EXCVIEW] and
    after the tweens that are there; it does not look whether the tween
    was added before, so including twice adds it twice, while the
    renderer gets at most one wrapper more. *)
Theorem X17_includeme_adds_tween (w : World Install) :
  let w1 := snd (includeme w) in
  let w2 := snd (includeme w1) in
  fst (includeme w) = Return tt
  /\ tracer_state w1 = tracer_state w
  /\ tweens (framework w1) = (tweens (framework w) ++ [(DD_TWEEN_NAME, EXCVIEW)])%list
  /\ tweens (framework w2) =
       (tweens (framework w) ++ [(DD_TWEEN_NAME, EXCVIEW); (DD_TWEEN_NAME, EXCVIEW)])%list
  /\ (wrappers (RendererHelper_render (framework w2))
      <= S (wrappers (RendererHelper_render (framework w))))%nat.
Proof.
  intros w1 w2. subst w1 w2.
  assert (Hone : forall w0 : World Install,
             fst (includeme w0) = Return tt
             /\ tracer_state (snd (includeme w0)) = tracer_state w0
             /\ tweens (framework (snd (includeme w0)))
                = (tweens (framework w0) ++ [(DD_TWEEN_NAME, EXCVIEW)])%list
             /\ (wrappers (RendererHelper_render (framework (snd (includeme w0))))
                 <= S (wrappers (RendererHelper_render (framework w0))))%nat).
  { intros w0. unfold includeme. run_monad.
    destruct (is_proxy (RendererHelper_render (framework w0))); cbn; repeat split; lia. }
  destruct (Hone w) as (Hr & Ht & Htw & Hwr).
  destruct (Hone (snd (includeme w))) as (_ & _ & Htw2 & _).
  split; [exact Hr|]. split; [exact Ht|]. split; [exact Htw|].
  split; [rewrite Htw2, Htw, <- app_assoc; reflexivity|].
  pose proof (includeme_on_proxy (snd (includeme w)) (includeme_proxy w)) as Hsame.
  rewrite Hsame. exact Hwr.
Qed.

End PyramidMore.

(** ** The properties on the sample environment *)

#[local] Existing Instance Sample.sample_imports.

Section OnSamples.
Import Sample.





(** C3 as stated fails: the request span of a GET is opened with the
    resource ["404"] by the pyramid tween and with the name of the
    wrapped function by molten, not with ["GET unmatched"]. *)
Lemma C3_counterexample_provisional_resource :
  (let w := pyramid_world (get_request "/nothing" None) in
   let w' := snd (Pyramid.trace_tween (handler_answering 404) no_settings "pyramid"
                    ddtrace_tracer true w) in
   Pyramid.Request.method (framework w) = "GET"
   /\ log (tracer_state w') !! 1%nat =
        Some (EvSpanStart 0 "pyramid.request" (Some "pyramid") (Some "404") "web")
   /\ forall nm svc ty,
        EvSpanStart 0 nm svc (Some ("GET" ++ " unmatched")) ty ∉ log (tracer_state w'))
  /\ (let w := molten_world (patched_module true) in
      let w' := snd (Molten.patch_app_call (app_answering "404 Not Found")
                       (get_environ "/nothing", server_start_response) ∅ w) in
      MoltenHttp.method (from_environ (get_environ "/nothing")) = "GET"
      /\ log (tracer_state w') !! 1%nat =
           Some (EvSpanStart 0 "molten.request" (Some "molten")
                   (Some "molten.app.App.__call__") "web")
      /\ forall nm svc ty,
           EvSpanStart 0 nm svc (Some ("GET" ++ " unmatched")) ty ∉ log (tracer_state w')).
Proof.
  split.
  - split; [vm_compute; reflexivity|]. split; [vm_compute; reflexivity|].
    intros nm svc ty Hin. apply list_elem_of_In in Hin. vm_compute in Hin.
    repeat (destruct Hin as [Hin|Hin]; [discriminate Hin|]). exact Hin.
  - split; [vm_compute; reflexivity|]. split; [vm_compute; reflexivity|].
    intros nm svc ty Hin. apply list_elem_of_In in Hin. vm_compute in Hin.
    repeat (destruct Hin as [Hin|Hin]; [discriminate Hin|]). exact Hin.
Qed.

(** The tag keys of the sample environment are distinct. *)
Lemma sample_keys_distinct :
  NoDup [COMPONENT; SPAN_KIND; SPAN_MEASURED_KEY; ANALYTICS_SAMPLE_RATE_KEY; "molten.version"].
Proof. apply (bool_decide_unpack _). vm_compute. reflexivity. Defined.

(** C3 on a GET to molten and to pyramid. *)
Lemma C3_witness :
  NoDup [COMPONENT; SPAN_KIND; SPAN_MEASURED_KEY; ANALYTICS_SAMPLE_RATE_KEY; "molten.version"]
  /\ (let w := molten_world (patched_module true) in
      Molten._datadog_pin (Molten.molten (framework w)) = Some (pin_with true)
      /\ pin_enabled (pin_with true) = true
      /\ exists s,
          span_of 0 (Molten.app_world (app_answering "404 Not Found") (pin_with true)
                       (get_environ "/nothing") w) = Some s
          /\ resource s = Some "molten.app.App.__call__"
          /\ tags s !! "component" = Some (Py.PStr "molten")
          /\ tags s !! "span.kind" = Some (Py.PStr "server")
          /\ tags s !! "_dd.measured" = Some Py.PNone
          /\ finished s = false)
  /\ (let w := pyramid_world (get_request "/nothing" None) in
      exists s,
        span_of 0 (Pyramid.handler_world no_settings "pyramid" ddtrace_tracer true w) = Some s
        /\ resource s = Some "404"
        /\ tags s !! "component" = Some (Py.PStr "pyramid")
        /\ tags s !! "span.kind" = Some (Py.PStr "server")
        /\ tags s !! "_dd.measured" = Some Py.PNone
        /\ finished s = false).
Proof.
  split; [exact sample_keys_distinct|]. split.
  - split; [reflexivity|]. split; [reflexivity|].
    exact (proj2 (proj1 (C3_span_at_request_entry sample_keys_distinct)
                    (app_answering "404 Not Found") (get_environ "/nothing")
                    server_start_response ∅ (molten_world (patched_module true))
                    (pin_with true) eq_refl eq_refl)).
  - exact (proj2 (proj2 (C3_span_at_request_entry sample_keys_distinct)
                    (handler_answering 404) no_settings "pyramid" ddtrace_tracer true
                    (pyramid_world (get_request "/nothing" None)))).
Defined.



(** C5 on a handler that raises a [ZeroDivisionError]. *)
Lemma C5_witness :
  let w := pyramid_world (get_request "/boom" None) in
  let w1 := Pyramid.handler_world no_settings "pyramid" ddtrace_tracer true w in
  handler_raising boom w1 = (Raise boom, w1)
  /\ exists w' m,
      Pyramid.trace_tween (handler_raising boom) no_settings "pyramid" ddtrace_tracer true w
        = (Raise boom, w')
      /\ hm_status_code m = Some (CodeInt 500)
      /\ hm_method m = Some "GET"
      /\ hm_url m = Some "http://localhost/boom"
      /\ log (tracer_state w') = (log (tracer_state w1) ++ [EvHttpMeta 0 m; EvSpanFinish 0])%list.
Proof.
  split; [reflexivity|].
  destruct (C5_unhandled_exception_recorded_as_500 (handler_raising boom) no_settings
              "pyramid" ddtrace_tracer true (pyramid_world (get_request "/boom" None))
              "ZeroDivisionError" "division by zero" _ eq_refl)
    as (w' & Hrun & Hcode & Hm & Hurl & _ & _ & _ & Hlog & _).
  exists w'. eexists. split; [exact Hrun|]. split; [exact Hcode|].
  split; [exact Hm|]. split; [exact Hurl | exact Hlog].
Defined.

(** C6 on the status lines ["404 Not Found"] and ["abc Not Found"]. *)
Lemma C6_witness :
  let w := molten_world_with (patched_module true) [unrouted_span] in
  Molten.pin_off (Molten._datadog_pin (Molten.molten (framework w))) = false
  /\ ((Py.partition_space "404 Not Found").1.1 = Py.str_of_int 404
      /\ (Py.count_digits (Py.partition_space "404 Not Found").1.1
          <=? Py.int_max_str_digits)%nat = true
      /\ log (tracer_state (Molten.emit_world 0 get_molten_request "404 Not Found" w)) =
           [EvHttpMeta 0 (Molten.status_meta (CodeInt 404))])
  /\ (Py.all_chars Py.is_ascii (Py.partition_space "abc Not Found").1.1 = true
      /\ Py.all_chars Py.int_char (Py.partition_space "abc Not Found").1.1 = false
      /\ log (tracer_state (Molten.emit_world 0 get_molten_request "abc Not Found" w)) =
           [EvHttpMeta 0 (Molten.status_meta (CodeStr "abc"))]
      /\ Molten._w_start_response 0 get_molten_request server_start_response
           "abc Not Found" [] None ∅ w =
         server_start_response "abc Not Found" [] None ∅
           (Molten.emit_world 0 get_molten_request "abc Not Found" w)).
Proof.
  assert (H1 : Molten.pin_off (Molten._datadog_pin (Molten.molten (framework
                 (molten_world_with (patched_module true) [unrouted_span])))) = false)
    by reflexivity.
  assert (H2 : (Py.partition_space "404 Not Found").1.1 = Py.str_of_int 404)
    by (vm_compute; reflexivity).
  assert (H3 : (Py.count_digits (Py.partition_space "404 Not Found").1.1
                <=? Py.int_max_str_digits)%nat = true) by (vm_compute; reflexivity).
  assert (H4 : Py.all_chars Py.int_char (Py.partition_space "abc Not Found").1.1 = false)
    by (vm_compute; reflexivity).
  destruct (C6_status_line_parse_is_tolerant 0%nat get_molten_request
              server_start_response "404 Not Found" [] None ∅
              (molten_world_with (patched_module true) [unrouted_span]))
    as (Hint & _ & _ & Hon).
  destruct (Hon H1) as (_ & Hlog & _).
  rewrite (Hint 404 H2 H3) in Hlog.
  destruct (C6_status_line_parse_is_tolerant 0%nat get_molten_request
              server_start_response "abc Not Found" [] None ∅
              (molten_world_with (patched_module true) [unrouted_span]))
    as (_ & Hraw & _ & Hon').
  destruct (Hon' H1) as (Hrun' & Hlog' & _).
  assert (H5 : Py.all_chars Py.is_ascii (Py.partition_space "abc Not Found").1.1 = true)
    by (vm_compute; reflexivity).
  rewrite (Hraw H5 H4) in Hlog'.
  split; [exact H1|]. split; [split; [exact H2 | split; [exact H3 | exact Hlog]]|].
  split; [exact H5|]. split; [exact H4|]. split; [exact Hlog' | exact Hrun'].
Defined.

(** C7 as stated fails for pyramid: with the tracer disabled and the
    setting [SETTINGS_TRACE_ENABLED] true, the tween that the factory
    returns opens a span; and the render wrapper opens a span for a
    request that carries a disabled tracer. *)
Lemma C7_counterexample_disabled_tracer_still_traced :
  let registry := {| Pyramid.settings := forced_settings |} in
  let w := pyramid_world (get_request "/" None) in
  let tween := Pyramid.trace_tween_factory (handler_answering 200) registry in
  let w2 := pyramid_world (traced_request disabled_tracer) in
  let kwargs : gmap string Pyramid.Arg := {["request" := Pyramid.ArgRequest]} in
  enabled (default ddtrace_tracer (Pyramid.SETTINGS_TRACER (Pyramid.settings registry)))
    = false
  /\ length (spans (tracer_state (snd (handler_answering 200 w)))) = 0%nat
  /\ length (spans (tracer_state (snd (tween w)))) = 1%nat
  /\ tween w <> handler_answering 200 w
  /\ Pyramid.request_tracer kwargs w2 = Some disabled_tracer
  /\ length (spans (tracer_state (snd (render [] kwargs w2)))) = 0%nat
  /\ length (spans (tracer_state (snd (Pyramid.trace_render render [] kwargs w2)))) = 1%nat
  /\ Pyramid.trace_render render [] kwargs w2 <> render [] kwargs w2.
Proof.
  repeat split; try (vm_compute; reflexivity).
  - intros Hx. apply (f_equal (fun r => length (spans (tracer_state (snd r))))) in Hx.
    vm_compute in Hx. discriminate Hx.
  - intros Hx. apply (f_equal (fun r => length (spans (tracer_state (snd r))))) in Hx.
    vm_compute in Hx. discriminate Hx.
Qed.

(** C7 on a molten pin whose tracer is disabled, on pyramid settings
    that switch tracing off, and on a request without tracer. *)
Lemma C7_witness :
  (let w := molten_world (patched_module false) in
   Molten.pin_off (Molten._datadog_pin (Molten.molten (framework w))) = true
   /\ Molten.patch_app_call (app_answering "200 OK")
        (get_environ "/", server_start_response) ∅ w =
      Molten.call (app_answering "200 OK") (get_environ "/", server_start_response) ∅ w)
  /\ (let registry := {| Pyramid.settings := off_settings |} in
      Pyramid.asbool (default (Py.PBool (enabled ddtrace_tracer))
                        (Pyramid.SETTINGS_TRACE_ENABLED (Pyramid.settings registry))) = false
      /\ Pyramid.trace_tween_factory (handler_answering 200) registry = handler_answering 200)
  /\ (let w := pyramid_world (get_request "/" None) in
      let kwargs : gmap string Pyramid.Arg := {["request" := Pyramid.ArgRequest]} in
      Pyramid.request_tracer kwargs w = None
      /\ Pyramid.trace_render render [] kwargs w = render [] kwargs w).
Proof.
  destruct C7_passthrough_when_off as (Hm & Ht & Hr).
  split; [|split].
  - split; [reflexivity|]. apply Hm. reflexivity.
  - assert (H1 : Pyramid.asbool (default (Py.PBool (enabled ddtrace_tracer))
                   (Pyramid.SETTINGS_TRACE_ENABLED off_settings)) = false)
      by (vm_compute; reflexivity).
    split; [exact H1|]. exact (Ht (handler_answering 200) {| Pyramid.settings := off_settings |} H1).
  - assert (H1 : Pyramid.request_tracer ({["request" := Pyramid.ArgRequest]} : gmap string Pyramid.Arg)
                   (pyramid_world (get_request "/" None)) = None)
      by (vm_compute; reflexivity).
    split; [exact H1|]. exact (Hr render [] _ _ H1).
Defined.

(** C8 on a module that was not patched and a configuration that was
    not included. *)
Lemma C8_witness :
  let w := molten_world fresh_module in
  let w2 := snd (Molten.patch (snd (Molten.patch w))) in
  Molten._datadog_patch (Molten.molten (framework w)) = false
  /\ Molten.patch (snd (Molten.patch w)) = (Return tt, snd (Molten.patch w))
  /\ Wrapt.wrappers (Molten.BaseApp__init__ (Molten.molten (framework w2))) = 1%nat
  /\ Wrapt.wrappers (Molten.App__call__ (Molten.molten (framework w2))) = 1%nat
  /\ Molten.call_init (Molten.BaseApp__init__ (Molten.molten (framework w2))) original_init
       = Molten.patch_app_init original_init
  /\ Molten.router (Molten.instance (framework (snd (Molten.patch_app_init original_init w2))))
       = Molten.WrapperRouter (Molten.Bare "router")
  /\ Wrapt.wrappers (Pyramid.RendererHelper_render
                       (framework (snd (Pyramid.includeme (snd (Pyramid.includeme fresh_install))))))
       = 1%nat.
Proof.
  destruct C8_install_idempotent as (Hidem & Hmod & Hinit & Hinc).
  split; [reflexivity|]. split; [apply Hidem|].
  destruct (Hmod (molten_world fresh_module) eq_refl) as (Hi & Hc & Hcall).
  split; [exact Hi|]. split; [exact Hc|]. split; [exact (Hcall eq_refl original_init)|].
  split.
  - exact (proj1 (Hinit original_init
                    (snd (Molten.patch (snd (Molten.patch (molten_world fresh_module)))))
                    _ eq_refl eq_refl)).
  - exact (proj2 (proj2 (Hinc fresh_install)) eq_refl).
Defined.

(** C9 on a molten request that carries a trace id, and on a pyramid
    request. *)
Lemma C9_witness :
  (let w := molten_world (patched_module true) in
   let environ := <["HTTP_X_DATADOG_TRACE_ID" := Py.PStr "1234"]> (get_environ "/") in
   let w1 := Molten.app_world (app_answering "200 OK") (pin_with true) environ w in
   Molten._datadog_pin (Molten.molten (framework w)) = Some (pin_with true)
   /\ pin_enabled (pin_with true) = true
   /\ exists ctx nm svc res ty,
       log (tracer_state w1) =
         [EvActivate ctx; EvSpanStart 0 nm svc res ty;
          EvHttpMeta 0 (Molten.request_meta (from_environ environ))]
       /\ parent <$> span_of 0 w1 = Some ctx
       /\ (distributed_tracing config_molten = true ->
           ctx = extract (Py.dict (MoltenHttp.headers (from_environ environ)))))
  /\ (let w := pyramid_world (get_request "/" None) in
      let w1 := Pyramid.handler_world no_settings "pyramid" ddtrace_tracer true w in
      exists ctx nm svc res ty,
        log (tracer_state w1) = [EvActivate ctx; EvSpanStart 0 nm svc res ty]
        /\ parent <$> span_of 0 w1 = Some ctx
        /\ (true = true -> ctx = extract (Pyramid.Request.headers (framework w)))).
Proof.
  destruct C9_context_activated_before_span_opens as (Hm & Hp).
  split.
  - split; [reflexivity|]. split; [reflexivity|].
    exact (proj2 (Hm (app_answering "200 OK")
                    (<["HTTP_X_DATADOG_TRACE_ID" := Py.PStr "1234"]> (get_environ "/"))
                    server_start_response ∅ (molten_world (patched_module true))
                    (pin_with true) eq_refl eq_refl)).
  - exact (proj2 (Hp (handler_answering 200) no_settings "pyramid" ddtrace_tracer true
                    (pyramid_world (get_request "/" None)))).
Defined.

(** C10 on a call of [render] without keyword arguments. *)
Lemma C10_witness :
  let w := pyramid_world (get_request "/" None) in
  ((∅ : gmap string Pyramid.Arg) !! "request" = None
   \/ Pyramid.request_tracer (∅ : gmap string Pyramid.Arg) w = None)
  /\ Pyramid.trace_render render [Pyramid.ArgVal (Py.PStr "index.pt")] ∅ w =
       render [Pyramid.ArgVal (Py.PStr "index.pt")] ∅ w.
Proof.
  assert (H1 : (∅ : gmap string Pyramid.Arg) !! "request" = None
               \/ Pyramid.request_tracer (∅ : gmap string Pyramid.Arg)
                    (pyramid_world (get_request "/" None)) = None)
    by (left; reflexivity).
  split; [exact H1|].
  exact (C10_render_without_tracer_passes_through render
           [Pyramid.ArgVal (Py.PStr "index.pt")] ∅ _ H1).
Defined.

End OnSamples.

Section MoreOnSamples.
Import Sample.

(** X1 on a module that was never patched. *)
Lemma X1_witness :
  let w := molten_world fresh_module in
  Molten._datadog_patch (Molten.molten (framework w)) = false
  /\ Molten._datadog_pin (Molten.molten (framework w)) = None
  /\ Molten.unpatch (snd (Molten.patch w)) = (Return tt, w).
Proof.
  split; [reflexivity|]. split; [reflexivity|].
  exact (X1_unpatch_undoes_patch (molten_world fresh_module) eq_refl eq_refl).
Defined.

(** X3 on an application that raises. *)
Lemma X3_witness :
  let w := molten_world (patched_module true) in
  let args := (get_environ "/", server_start_response) in
  let res := Molten.patch_app_call (app_raising boom) args ∅ w in
  Molten._datadog_pin (Molten.molten (framework w)) = Some (pin_with true)
  /\ pin_enabled (pin_with true) = true
  /\ fst res = Raise boom
  /\ exists s', span_of 0 (snd res) = Some s' /\ finished s' = true /\ error s' = true.
Proof.
  split; [reflexivity|]. split; [reflexivity|].
  destruct (X3_patch_app_call_transparent (app_raising boom) (get_environ "/")
              server_start_response ∅ (molten_world (patched_module true))
              (pin_with true) eq_refl eq_refl)
    as (Hfst & _ & _ & Hspan & _).
  split; [exact Hfst|].
  destruct (Hspan _ eq_refl) as (s' & Hs' & Hf & _ & _ & He & _).
  exists s'. split; [exact Hs'|]. split; [exact Hf | exact (He boom eq_refl)].
Defined.

(** X4 on an application that never calls [start_response]. *)
Lemma X4_witness :
  let w := molten_world (patched_module true) in
  let w1 := Molten.app_world app_silent (pin_with true) (get_environ "/") w in
  span_of 0 (snd (Molten.call app_silent
                    (get_environ "/",
                     Molten._w_start_response 0 (from_environ (get_environ "/"))
                       server_start_response) ∅ w1)) = span_of 0 w1
  /\ exists s,
      span_of 0 (snd (Molten.patch_app_call app_silent
                        (get_environ "/", server_start_response) ∅ w)) = Some s
      /\ resource s = Some "molten.app.App.__call__"
      /\ http_meta s = [Molten.request_meta (from_environ (get_environ "/"))]
      /\ hm_status_code (Molten.request_meta (from_environ (get_environ "/"))) = None
      /\ finished s = true.
Proof.
  split; [reflexivity|].
  exact (X4_no_emission app_silent (get_environ "/") server_start_response ∅
           (molten_world (patched_module true)) (pin_with true) eq_refl eq_refl eq_refl).
Defined.

(** The route tag key of the sample environment is none of the entry keys. *)
Lemma sample_route_key_fresh :
  MOLTEN_ROUTE ∉ [COMPONENT; SPAN_KIND; SPAN_MEASURED_KEY; ANALYTICS_SAMPLE_RATE_KEY;
                  "molten.version"].
Proof. apply (bool_decide_unpack _). vm_compute. reflexivity. Defined.

(** X5 on a GET that is answered with ["404 Not Found"]. *)
Lemma X5_witness :
  let w := molten_world (patched_module true) in
  (forall w0 : World Molten.State,
      server_start_response "404 Not Found" [] None ∅ w0 = (Return Py.PNone, w0))
  /\ exists w' s,
      Molten.patch_app_call
        {| Molten.func_name := "molten.app.App.__call__";
           Molten.call := fun args _ =>
             snd args "404 Not Found" [] None ∅ ≫= fun _ => mret ["Not Found"] |}
        (get_environ "/nothing", server_start_response) ∅ w = (Return ["Not Found"], w')
      /\ span_of 0 w' = Some s
      /\ resource s = Some ("GET" ++ " " ++ Molten.format_code (Molten.status_code_of "404 Not Found"))
      /\ http_meta s = [Molten.request_meta (from_environ (get_environ "/nothing"));
                        Molten.status_meta (Molten.status_code_of "404 Not Found")]
      /\ finished s = true.
Proof.
  assert (Hsr : forall w0 : World Molten.State,
             server_start_response "404 Not Found" [] None ∅ w0 = (Return Py.PNone, w0))
    by (intros w0; reflexivity).
  split; [exact Hsr|].
  exact (X5_single_emission (get_environ "/nothing") server_start_response ∅
           (molten_world (patched_module true)) (pin_with true)
           "molten.app.App.__call__" "404 Not Found" [] None ∅ ["Not Found"] Py.PNone
           eq_refl eq_refl sample_route_key_fresh Hsr).
Defined.

(** X7 on a span without route tag that gets ["500 Internal Server Error"]
    and then ["200 OK"]. *)
Lemma X7_witness :
  let w := molten_world_with (patched_module true) [unrouted_span] in
  let shim := Molten._w_start_response 0 get_molten_request server_start_response in
  Molten.has_route unrouted_span = false
  /\ exists w' s',
      (shim "500 Internal Server Error" [] None ∅ ≫= fun _ => shim "200 OK" [] None ∅) w
        = (Return Py.PNone, w')
      /\ span_of 0 w' = Some s'
      /\ resource s' = Some ("GET" ++ " " ++ Molten.format_code (Molten.status_code_of "200 OK"))
      /\ http_meta s' =
           [Molten.status_meta (Molten.status_code_of "500 Internal Server Error");
            Molten.status_meta (Molten.status_code_of "200 OK")].
Proof.
  assert (Hr : Molten.has_route unrouted_span = false) by (vm_compute; reflexivity).
  split; [exact Hr|].
  exact (X7_second_emission_wins 0%nat get_molten_request server_start_response
           "500 Internal Server Error" "200 OK" [] None ∅
           (molten_world_with (patched_module true) [unrouted_span]) unrouted_span Py.PNone
           eq_refl (fun _ _ => eq_refl) eq_refl Hr).
Defined.

(** X8 on the token ["404"]. *)
Lemma X8_witness :
  let w := molten_world_with (patched_module true) [unrouted_span] in
  Py.all_chars Py.not_space "404" = true
  /\ Molten.pin_off (Molten._datadog_pin (Molten.molten (framework w))) = false
  /\ Molten.status_code_of ("404" ++ " " ++ "Not Found") = Molten.parse_code "404"
  /\ Molten.status_code_of "404" = Molten.parse_code "404".
Proof.
  split; [reflexivity|]. split; [reflexivity|].
  destruct (X8_status_code_from_first_token 0%nat get_molten_request server_start_response
              "404" "Not Found" [] None ∅
              (molten_world_with (patched_module true) [unrouted_span]) eq_refl eq_refl)
    as (H1 & H2 & _).
  split; [exact H1 | exact H2].
Defined.

(** X9 on the status code 404. *)
Lemma X9_witness :
  let w := molten_world_with (patched_module true) [unrouted_span] in
  (Py.count_digits (Py.str_of_int 404) <=? Py.int_max_str_digits)%nat = true
  /\ Molten.pin_off (Molten._datadog_pin (Molten.molten (framework w))) = false
  /\ Py.int (Py.str_of_int 404) = Some 404
  /\ Molten.status_code_of (Py.str_of_int 404 ++ " " ++ "Not Found") = CodeInt 404.
Proof.
  assert (H1 : (Py.count_digits (Py.str_of_int 404) <=? Py.int_max_str_digits)%nat = true)
    by (vm_compute; reflexivity).
  split; [exact H1|]. split; [reflexivity|].
  destruct (X9_decimal_status_round_trip 404 "Not Found" 0%nat get_molten_request
              server_start_response [] None ∅
              (molten_world_with (patched_module true) [unrouted_span]) H1 eq_refl)
    as (H2 & H3 & _).
  split; [exact H2 | exact H3].
Defined.

(** X10 on an initializer that raises, and on a disabled pin. *)
Lemma X10_witness :
  (let w := molten_world (patched_module true) in
   failing_init w = (Raise (OtherException "TypeError" "bad argument"), w)
   /\ Molten.patch_app_init failing_init w
      = (Raise (OtherException "TypeError" "bad argument"), w))
  /\ (let w := molten_world (patched_module false) in
      original_init w = (Return tt, w)
      /\ Molten.pin_off (Molten._datadog_pin (Molten.molten (framework w))) = true
      /\ Molten.patch_app_init original_init w = (Return tt, w)).
Proof.
  split.
  - split; [reflexivity|].
    exact (proj1 (X10_patch_app_init_wraps_nothing failing_init
                    (molten_world (patched_module true))) _ _ eq_refl).
  - split; [reflexivity|]. split; [reflexivity|].
    exact (proj2 (X10_patch_app_init_wraps_nothing original_init
                    (molten_world (patched_module false))) _ eq_refl eq_refl).
Defined.

(** X11 on the sample application with the pin enabled. *)
Lemma X11_witness :
  let w := molten_world (patched_module true) in
  let w'' := snd (Molten.patch_app_init (Molten.patch_app_init original_init) w) in
  original_init w = (Return tt, w)
  /\ Molten.pin_off (Molten._datadog_pin (Molten.molten (framework w))) = false
  /\ Molten.router (Molten.instance (framework w''))
     = Molten.WrapperRouter (Molten.WrapperRouter (Molten.Bare "router")).
Proof.
  split; [reflexivity|]. split; [reflexivity|].
  exact (proj1 (proj2 (X11_patch_app_init_layers original_init
                         (molten_world (patched_module true)) _ eq_refl eq_refl))).
Defined.


(** X13 on a handler that answers 200. *)
Lemma X13_witness :
  let w := pyramid_world (get_request "/" (Some index_route)) in
  let w1 := Pyramid.handler_world no_settings "pyramid" ddtrace_tracer true w in
  let response := Some {| Pyramid.Response.status_code := 200;
                          Pyramid.Response.headers := [] |} in
  handler_answering 200 w1 = (Return response, w1)
  /\ exists w' m,
      Pyramid.trace_tween (handler_answering 200) no_settings "pyramid" ddtrace_tracer true w
        = (Return response, w')
      /\ hm_status_code m = Some (CodeInt 200)
      /\ hm_response_headers m = Some []
      /\ hm_route m = Some "/".
Proof.
  split; [reflexivity|].
  destruct (X13_tween_records_return (handler_answering 200) no_settings "pyramid"
              ddtrace_tracer true (pyramid_world (get_request "/" (Some index_route)))
              _ _ eq_refl)
    as (w' & m & Hrun & _ & Hcode & Hhs & _ & _ & _ & _ & Hroute).
  exists w', m. split; [exact Hrun|]. split; [exact Hcode|]. split; [exact Hhs|exact Hroute].
Defined.

(** X14 on a request that comes without tracer. *)
Lemma X14_witness :
  let w := pyramid_world (get_request "/" None) in
  let w1 := Pyramid.handler_world no_settings "pyramid" ddtrace_tracer true w in
  request_kwargs !! "request" = Some Pyramid.ArgRequest
  /\ Pyramid.Request._datadog_tracer (framework w) = None
  /\ Pyramid.request_tracer request_kwargs w1 = Some ddtrace_tracer
  /\ Pyramid.trace_render render [] request_kwargs w1 =
       (let '(o, w2) := render [] request_kwargs (Pyramid.render_world w1) in
        (o, Pyramid.render_done 1 o w2)).
Proof.
  assert (Hk : request_kwargs !! "request" = Some Pyramid.ArgRequest)
    by (vm_compute; reflexivity).
  destruct (X14_tween_hands_tracer_to_render no_settings "pyramid" ddtrace_tracer true
              (pyramid_world (get_request "/" None)) request_kwargs Hk)
    as (_ & _ & _ & _ & _ & _ & _ & Ht & Hrender).
  split; [exact Hk|]. split; [reflexivity|]. split; [exact Ht|].
  exact (Hrender render []).
Defined.

(** X15 on a request that carries a tracer. *)
Lemma X15_witness :
  let w := pyramid_world (traced_request ddtrace_tracer) in
  Pyramid.request_tracer request_kwargs w = Some ddtrace_tracer
  /\ fst (Pyramid.trace_render render [] request_kwargs w)
     = fst (render [] request_kwargs (Pyramid.render_world w))
  /\ log (tracer_state (Pyramid.render_world w))
     = [EvSpanStart 0 "pyramid.render" None None "template"].
Proof.
  assert (Ht : Pyramid.request_tracer request_kwargs
                 (pyramid_world (traced_request ddtrace_tracer)) = Some ddtrace_tracer)
    by (vm_compute; reflexivity).
  destruct (X15_render_traced render [] request_kwargs
              (pyramid_world (traced_request ddtrace_tracer)) ddtrace_tracer Ht)
    as (Hfst & _ & _ & _ & Hlog & _).
  split; [exact Ht|]. split; [exact Hfst|exact Hlog].
Defined.

(** X16 on settings that switch analytics on with the rate 0.5. *)
Lemma X16_witness :
  let w := pyramid_world (get_request "/" None) in
  let w1 := Pyramid.handler_world analytics_settings "pyramid" ddtrace_tracer true w in
  (ANALYTICS_SAMPLE_RATE_KEY ∉ [COMPONENT; SPAN_KIND; SPAN_MEASURED_KEY])
  /\ Pyramid.SETTINGS_ANALYTICS_ENABLED analytics_settings = Some (Py.PBool true)
  /\ (span_of 0 w1 ≫= fun s => tags s !! ANALYTICS_SAMPLE_RATE_KEY)
     = Some (Py.PFloat "0.5").
Proof.
  assert (Hn : ANALYTICS_SAMPLE_RATE_KEY ∉ [COMPONENT; SPAN_KIND; SPAN_MEASURED_KEY])
    by (apply (bool_decide_unpack _); vm_compute; reflexivity).
  split; [exact Hn|]. split; [reflexivity|].
  exact (proj1 (proj2 (proj2 (X16_analytics_precedence analytics_settings "pyramid"
                                ddtrace_tracer true (pyramid_world (get_request "/" None)) Hn)))
           eq_refl).
Defined.

End MoreOnSamples.

(** ** Runs on the sample environment *)

Example molten_undefined_path :
  let w' := snd (Molten.patch_app_call (Sample.app_answering "404 Not Found")
                   (Sample.get_environ "/nothing", Sample.server_start_response) ∅
                   (Sample.molten_world (Sample.patched_module true))) in
  resource_of 0 w' = Some (Some "GET 404")
  /\ (fun s => (tags s !! "molten.route", finished s)) <$> span_of 0 w' = Some (None, true).
Proof. vm_compute. split; reflexivity. Qed.

Example molten_status_not_a_number :
  let w' := snd (Molten.patch_app_call (Sample.app_answering "abc Not Found")
                   (Sample.get_environ "/nothing", Sample.server_start_response) ∅
                   (Sample.molten_world (Sample.patched_module true))) in
  resource_of 0 w' = Some (Some "GET abc")
  /\ (fun s => last (http_meta s) ≫= hm_status_code) <$> span_of 0 w'
       = Some (Some (CodeStr "abc")).
Proof. vm_compute. split; reflexivity. Qed.

Example molten_disabled :
  Molten.patch_app_call (Sample.app_answering "200 OK")
    (Sample.get_environ "/", Sample.server_start_response) ∅
    (Sample.molten_world (Sample.patched_module false))
  = (Return [], Sample.molten_world (Sample.patched_module false)).
Proof. vm_compute. reflexivity. Qed.

Example pyramid_matched_route :
  let w' := snd (Pyramid.trace_tween (Sample.handler_answering 200) Sample.no_settings
                   "pyramid" ddtrace_tracer true
                   (Sample.pyramid_world (Sample.get_request "/" (Some Sample.index_route)))) in
  resource_of 0 w' = Some (Some "GET index")
  /\ (fun s => last (http_meta s) ≫= hm_status_code) <$> span_of 0 w'
       = Some (Some (CodeInt 200)).
Proof. vm_compute. split; reflexivity. Qed.

Example patch_unpatch_patch :
  let w := Sample.molten_world Sample.fresh_module in
  snd (Molten.patch (snd (Molten.unpatch (snd (Molten.patch w))))) = snd (Molten.patch w).
Proof. vm_compute. reflexivity. Qed.

Example asbool_values :
  Pyramid.asbool (Py.PStr " Yes ") = true /\ Pyramid.asbool (Py.PStr "0") = false
  /\ Pyramid.asbool (Py.PInt 1) = true /\ Pyramid.asbool Py.PNone = false.
Proof. vm_compute. repeat split; reflexivity. Qed.

Example partition_404 : Py.partition_space "404 Not Found" = ("404", " ", "Not Found").
Proof. reflexivity. Qed.

Example int_404 : Py.int "404" = Some 404.
Proof. reflexivity. Qed.

Example int_underscore : Py.int "4_0_4" = Some 404 /\ Py.int "4__04" = None /\ Py.int "-12" = Some (-12).
Proof. repeat split; reflexivity. Qed.

Example int_white_space :
  Py.int " 404 " = Some 404
  /\ Py.int (String (ascii_of_nat 31) "404") = None
  /\ Py.strip (String (ascii_of_nat 31) "404") = "404".
Proof. repeat split; reflexivity. Qed.

(** A render inside a request: the render span is a child of the request
    span, both are finished, and the context the request came with is
    the active one at the end. *)
Example pyramid_render_in_request :
  let w' := snd (Pyramid.trace_tween Sample.handler_rendering Sample.no_settings
                   "pyramid" ddtrace_tracer true
                   (Sample.pyramid_world (Sample.get_request "/" None))) in
  parent <$> span_of 1 w' = Some (span_context 0 empty_context)
  /\ finished <$> span_of 1 w' = Some true
  /\ finished <$> span_of 0 w' = Some true
  /\ active (tracer_state w') = empty_context.
Proof. vm_compute. repeat split; reflexivity. Qed.

(** [unpatch()] on a module whose flag is set while its attributes are
    plain functions: the flag is cleared, then unwrapping raises. *)
Example unpatch_plain_function :
  let m := {| Molten._datadog_patch := true;
              Molten._datadog_pin := None;
              Molten.BaseApp__init__ := Wrapt.Function "molten.app.BaseApp.__init__";
              Molten.App__call__ := Wrapt.Function "molten.app.App.__call__";
              Molten.__version__ := "1.0.2" |} in
  let res := Molten.unpatch (Sample.molten_world m) in
  fst res = Raise (OtherException "AttributeError" "__wrapped__")
  /\ Molten._datadog_patch (Molten.molten (framework (snd res))) = false.
Proof. vm_compute. split; reflexivity. Qed.

Example str_404 : Py.str_of_int 404 = "404" /\ Py.str_of_int (-7) = "-7".
Proof. split; vm_compute; reflexivity. Qed.
